(** * HVACPrompting: the synthetic construction-dataset generator

    A shallow embedding of [hvac_construction_dataset/generate_hvac_dataset.py]
    and the proofs of the properties its specification states.

    Modelling conventions, fixed once for the whole development:

    - Python [int] is [Z].  Python [float] is idealised as an exact rational
      [Q]: every float operation is the rational one, and [round] is
      round-half-to-even.  Every quantity the source obtains from [round(x)]
      (one argument) is a Python [int], hence a [Z] here, and the arithmetic
      on such quantities is exact in the source as well.
    - The module [random] is an interface ([PRNG]): a state with the two
      primitives CPython builds everything else on, [random()] and
      [_randbelow(n)].  [uniform], [randint], [choice], [sample] and
      [choices] are written on top of them the way CPython does.
      [uuid.uuid4()] reads the operating system's entropy, which
      [random.seed] does not reach: it is a second interface ([OsEntropy]).
    - A Python exception is [None] in the monad [M]; the generators never
      catch one.
    - A [datetime] is its proleptic Gregorian ordinal (a [Z]);
      [strftime("%Y-%m-%d")] is kept as that ordinal, which orders dates the
      way the formatted strings do.
    - A [dict] keyed by SOV line id is a [gmap string _]. *)

From Stdlib Require Import Ascii QArith Qround Qabs Lqa.
From stdpp Require Import base option list strings gmap fin_maps pretty sorting.

#[local] Open Scope Z_scope.

(** ** Numbers *)

(** [round(x)] on a float: the nearest integer, ties to the even one. *)
Definition py_round (x : Q) : Z :=
  let f := Qfloor x in
  match (x - inject_Z f ?= 1 # 2)%Q with
  | Lt => f
  | Gt => f + 1
  | Eq => if Z.even f then f else f + 1
  end.

(** [round(x, n)]: [x] rounded to [n] decimals, [scale] being [10 ** n]. *)
Definition py_round_to (scale : positive) (x : Q) : Q :=
  (inject_Z (py_round (x * inject_Z (Z.pos scale))) / inject_Z (Z.pos scale))%Q.

(** [int(x)] on a float truncates toward zero. *)
Definition py_int (x : Q) : Z :=
  if Qle_bool 0 x then Qfloor x else Qceiling x.

Definition Qltb (a b : Q) : bool := negb (Qle_bool b a).
(** [max(a, b)] and [min(a, b)]: the first argument wins a tie. *)
Definition Qmax (a b : Q) : Q := if Qltb a b then b else a.
Definition Qmin (a b : Q) : Q := if Qltb b a then b else a.
Definition Qsum (l : list Q) : Q := foldl Qplus 0%Q l.
Definition Zsum (l : list Z) : Z := foldl Z.add 0 l.

(** ** Strings *)

(** The double quote of the inch sizes in the material catalogue. *)
Definition inch : string :=
  String (Ascii.Ascii false true false false false true false false) EmptyString.

(** [needle in hay] on strings. *)
Fixpoint str_contains (needle hay : string) : bool :=
  String.prefix needle hay ||
  match hay with
  | EmptyString => false
  | String _ hay' => str_contains needle hay'
  end.

(** [s[:n]] and [s[-n:]]. *)
Definition str_take (n : nat) (s : string) : string := String.substring 0 n s.
Definition str_last (n : nat) (s : string) : string :=
  String.substring (String.length s - n) n s.

(** [str(n).zfill(width)] for a non-negative [n]. *)
Fixpoint str_repeat (n : nat) (s : string) : string :=
  match n with O => EmptyString | S n' => s +:+ str_repeat n' s end.
Definition zfill (width : nat) (s : string) : string :=
  str_repeat (width - String.length s) "0" +:+ s.

(** ** The host: the seeded generator and the operating system's entropy *)

Class PRNG (G : Type) := {
  prng_seed : Z -> G;                      (* random.seed(n) *)
  prng_random : G -> Q * G;                (* random.random() *)
  prng_randbelow : nat -> G -> nat * G;    (* random._randbelow(n) *)
}.

(** What the library documents of the two primitives. *)
Class PRNGLaws (G : Type) `{PRNG G} : Prop := {
  prng_random_range : forall g, (0 <= (prng_random g).1 /\ (prng_random g).1 < 1)%Q;
  prng_randbelow_range : forall n g, (0 < n)%nat -> ((prng_randbelow n g).1 < n)%nat;
}.

Class OsEntropy (E : Type) := {
  os_uuid4 : E -> string * E;              (* str(uuid.uuid4()) *)
}.

Record World (G E : Type) := mkWorld { w_rng : G; w_os : E }.
Arguments mkWorld {G E} _ _.
Arguments w_rng {G E} _.
Arguments w_os {G E} _.

(** ** The monad of the generators: state of the host, and exceptions *)

Definition M (G E : Type) (A : Type) : Type :=
  World G E -> option (A * World G E).

#[global] Instance M_ret {G E} : MRet (M G E) := fun A a w => Some (a, w).
#[global] Instance M_bind {G E} : MBind (M G E) := fun A B f c w =>
  match c w with
  | Some (a, w') => f a w'
  | None => None
  end.

Definition raise {G E A} : M G E A := fun _ => None.

Section Monad.
Context {G E : Type} `{PRNG G} `{OsEntropy E}.

#[local] Abbreviation M := (M G E).

Definition lift_rng {A} (f : G -> A * G) : M A := fun w =>
  let '(a, g) := f (w_rng w) in Some (a, mkWorld g (w_os w)).

Definition lift_os {A} (f : E -> A * E) : M A := fun w =>
  let '(a, e) := f (w_os w) in Some (a, mkWorld (w_rng w) e).

(** [for x in l: ...] collecting one value per element. *)
Fixpoint mapM {A B} (f : A -> M B) (l : list A) : M (list B) :=
  match l with
  | [] => mret []
  | x :: l' => y ← f x; ys ← mapM f l'; mret (y :: ys)
  end.

(** [for x in l: ...] threading the loop's variables. *)
Fixpoint foldM {A S} (f : S -> A -> M S) (l : list A) (s : S) : M S :=
  match l with
  | [] => mret s
  | x :: l' => s' ← f s x; foldM f l' s'
  end.

(** [x / y] on floats. *)
Definition fdiv (x y : Q) : M Q :=
  if Qeq_bool y 0 then raise else mret (x / y)%Q.

(** [l[i]] and [d[k]]. *)
Definition index {A} (l : list A) (i : nat) : M A :=
  match l !! i with Some x => mret x | None => raise end.
Definition getitem {A} (d : gmap string A) (k : string) : M A :=
  match d !! k with Some x => mret x | None => raise end.
Definition assoc {A} (d : list (string * A)) (k : string) : M A :=
  match list_find (fun kv => kv.1 = k) d with
  | Some (_, kv) => mret kv.2
  | None => raise
  end.

(** *** The functions of [random] the generators call *)

Definition random_random : M Q := lift_rng prng_random.

Definition randbelow (n : nat) : M nat := lift_rng (prng_randbelow n).

Definition random_uniform (a b : Q) : M Q :=
  r ← random_random; mret (a + (b - a) * r)%Q.

Definition random_randint (a b : Z) : M Z :=
  if b <? a then raise
  else i ← randbelow (Z.to_nat (b - a + 1)); mret (a + Z.of_nat i).

Definition random_choice {A} (seq : list A) : M A :=
  match seq with
  | [] => raise
  | _ => i ← randbelow (length seq); index seq i
  end.

(** [random.sample(population, k)], by the pool CPython keeps for a
    population of at most 21 elements (the catalogues have 8 and 15). *)
Fixpoint sample_pool {A} (k : nat) (pool : list A) (n : nat) : M (list A) :=
  match k with
  | O => mret []
  | S k' =>
      j ← randbelow n;
      x ← index pool j;
      y ← index pool (n - 1);
      rest ← sample_pool k' (<[j := y]> pool) (n - 1);
      mret (x :: rest)
  end.
Definition random_sample {A} (population : list A) (k : Z) : M (list A) :=
  if (k <? 0) || (Z.of_nat (length population) <? k) then raise
  else sample_pool (Z.to_nat k) population (length population).

(** [random.choices(population, weights=weights)[0]]: the cumulative
    weights are bisected at [random() * total]. *)
Fixpoint accumulate (acc : Q) (l : list Q) : list Q :=
  match l with
  | [] => []
  | x :: l' => (acc + x)%Q :: accumulate (acc + x)%Q l'
  end.
Fixpoint bisect (cum : list Q) (x : Q) (hi : nat) : nat :=
  match hi, cum with
  | S hi', c :: cum' => if Qltb x c then O else S (bisect cum' x hi')
  | _, _ => O
  end.
Definition random_choices1 {A} (population : list A) (weights : list Q) : M A :=
  let cum_weights := accumulate 0%Q weights in
  if negb (length cum_weights =? length population)%nat then raise
  else
    let total := default 0%Q (last cum_weights) in
    if Qle_bool total 0 then raise
    else
      r ← random_random;
      index population (bisect cum_weights (r * total)%Q (length population - 1)).

Definition uuid4 : M string := lift_os os_uuid4.
End Monad.

(** ** Configuration and constants *)

Record Project := {
  prj_id : string;
  prj_name : string;
  prj_type : string;
  prj_location : string;
  prj_sq_ft : Z;
  prj_floors : Z;
  prj_duration_months : Z;
  prj_complexity : string;
}.


Record SovTemplateItem := {
  tpl_code : string;
  tpl_description : string;
  tpl_pct_range : Q * Q;
}.

Definition SOV_TEMPLATE : list SovTemplateItem := [
  {| tpl_code := "01"; tpl_description := "General Conditions & Project Management";
     tpl_pct_range := (0.06, 0.09)%Q |};
  {| tpl_code := "02"; tpl_description := "Submittals & Engineering";
     tpl_pct_range := (0.02, 0.04)%Q |};
  {| tpl_code := "03"; tpl_description := "Ductwork - Fabrication";
     tpl_pct_range := (0.08, 0.12)%Q |};
  {| tpl_code := "04"; tpl_description := "Ductwork - Installation";
     tpl_pct_range := (0.10, 0.14)%Q |};
  {| tpl_code := "05"; tpl_description := "Piping - Hydronic Systems";
     tpl_pct_range := (0.08, 0.12)%Q |};
  {| tpl_code := "06"; tpl_description := "Piping - Refrigerant";
     tpl_pct_range := (0.04, 0.07)%Q |};
  {| tpl_code := "07"; tpl_description := "Equipment - RTUs/AHUs";
     tpl_pct_range := (0.12, 0.18)%Q |};
  {| tpl_code := "08"; tpl_description := "Equipment - Chillers/Boilers";
     tpl_pct_range := (0.08, 0.14)%Q |};
  {| tpl_code := "09"; tpl_description := "Equipment - Terminal Units (VAV/FCU)";
     tpl_pct_range := (0.06, 0.10)%Q |};
  {| tpl_code := "10"; tpl_description := "Controls - DDC/BAS Installation";
     tpl_pct_range := (0.06, 0.10)%Q |};
  {| tpl_code := "11"; tpl_description := "Controls - Programming & Commissioning";
     tpl_pct_range := (0.03, 0.05)%Q |};
  {| tpl_code := "12"; tpl_description := "Insulation";
     tpl_pct_range := (0.04, 0.06)%Q |};
  {| tpl_code := "13"; tpl_description := "Testing, Adjusting & Balancing (TAB)";
     tpl_pct_range := (0.02, 0.04)%Q |};
  {| tpl_code := "14"; tpl_description := "Startup & Commissioning Support";
     tpl_pct_range := (0.02, 0.03)%Q |};
  {| tpl_code := "15"; tpl_description := "Closeout Documentation & Training";
     tpl_pct_range := (0.01, 0.02)%Q |}
].

Record CrewRole := {
  role : string;
  hourly_rate : Q;
  burden_rate : Q;
}.

Definition CREW_ROLES : list CrewRole := [
  {| role := "Foreman"; hourly_rate := 85.50%Q; burden_rate := 1.42%Q |};
  {| role := "Journeyman Sheet Metal"; hourly_rate := 72.00%Q; burden_rate := 1.42%Q |};
  {| role := "Journeyman Pipefitter"; hourly_rate := 74.50%Q; burden_rate := 1.42%Q |};
  {| role := "Apprentice 4th Year"; hourly_rate := 52.00%Q; burden_rate := 1.38%Q |};
  {| role := "Apprentice 2nd Year"; hourly_rate := 38.00%Q; burden_rate := 1.38%Q |};
  {| role := "Controls Technician"; hourly_rate := 68.00%Q; burden_rate := 1.40%Q |};
  {| role := "Insulator"; hourly_rate := 58.00%Q; burden_rate := 1.40%Q |};
  {| role := "Helper/Laborer"; hourly_rate := 32.00%Q; burden_rate := 1.35%Q |}
].

Record MaterialCategory := {
  category : string;
  items : list string;
}.

Definition MATERIAL_CATEGORIES : list MaterialCategory := [
  {| category := "Ductwork";
     items := ["Galvanized Sheet Metal 22ga"; "Galvanized Sheet Metal 20ga";
               "Flex Duct 8" +:+ inch; "Flex Duct 10" +:+ inch;
               "Flex Duct 12" +:+ inch; "Spiral Duct 12" +:+ inch;
               "Spiral Duct 16" +:+ inch; "Spiral Duct 24" +:+ inch;
               "Duct Sealant"; "Hanging Hardware"] |};
  {| category := "Piping";
     items := ["Copper Type L 1" +:+ inch; "Copper Type L 1.5" +:+ inch;
               "Copper Type L 2" +:+ inch; "Black Steel Sch40 2" +:+ inch;
               "Black Steel Sch40 4" +:+ inch; "PVC Sch40 4" +:+ inch;
               "Pipe Hangers Assorted"; "Brazing Alloy"; "Flux";
               "Refrigerant R-410A"] |};
  {| category := "Equipment";
     items := ["RTU 15-Ton"; "RTU 25-Ton"; "AHU Custom"; "Chiller 200-Ton";
               "Boiler 2000MBH"; "VAV Box 12" +:+ inch; "VAV Box 16" +:+ inch;
               "FCU 2-Pipe"; "FCU 4-Pipe"; "Split System 3-Ton"] |};
  {| category := "Controls";
     items := ["DDC Controller"; "VAV Controller"; "Temp Sensor";
               "Pressure Sensor"; "Actuator 24V"; "Damper Motor";
               "Control Valve 1" +:+ inch; "Control Valve 2" +:+ inch;
               "BACnet Gateway"; "Touchscreen Interface"] |};
  {| category := "Insulation";
     items := ["Fiberglass Duct Wrap R-8"; "Fiberglass Duct Liner R-6";
               "Pipe Insulation 1" +:+ inch +:+ " Armaflex";
               "Pipe Insulation 2" +:+ inch +:+ " Armaflex";
               "Insulation Adhesive"; "Vapor Barrier Tape"] |}
].

(** [datetime(2024, 1, 1).toordinal()]; it is a Monday. *)
Definition DATE_2024_01_01 : Z := 738886.

(** [d.weekday()]: Monday is 0, Sunday is 6. *)
Definition weekday (d : Z) : Z := (d + 6) mod 7.

(** [int(s)] on a string of decimal digits. *)
Definition digit_of (c : Ascii.ascii) : option Z :=
  let n := Z.of_nat (Ascii.nat_of_ascii c) in
  if (48 <=? n) && (n <=? 57) then Some (n - 48) else None.
Fixpoint int_of_digits (acc : Z) (s : string) : option Z :=
  match s with
  | EmptyString => Some acc
  | String c s' =>
      match digit_of c with
      | Some d => int_of_digits (10 * acc + d) s'
      | None => None
      end
  end.
Definition int_of_str (s : string) : option Z :=
  match s with
  | EmptyString => None
  | _ => int_of_digits 0 s
  end.

(** ** Data generation functions *)

Record Contract := {
  ct_project_id : string;
  ct_project_name : string;
  original_contract_value : Z;
  contract_date : Z;
  substantial_completion_date : Z;
  retention_pct : Q;
  payment_terms : string;
  gc_name : string;
  architect : string;
  engineer_of_record : string;
}.

Record SovLine := {
  sl_project_id : string;
  sov_line_id : string;
  line_number : Z;
  sl_description : string;
  scheduled_value : Z;
  labor_pct : Q;
  material_pct : Q;
}.

Definition set_scheduled_value (v : Z) (l : SovLine) : SovLine :=
  {| sl_project_id := sl_project_id l; sov_line_id := sov_line_id l;
     line_number := line_number l; sl_description := sl_description l;
     scheduled_value := v; labor_pct := labor_pct l;
     material_pct := material_pct l |}.

Record BillingLineItem := {
  li_sov_line_id : string;
  li_description : string;
  li_scheduled_value : Z;
  previous_billed : Z;
  this_period : Z;
  total_billed : Z;
  pct_complete : Q;
  balance_to_finish : Z;
}.

Record BillingApplication := {
  ba_project_id : string;
  application_number : Z;
  period_end : Z;
  period_total : Z;
  cumulative_billed : Z;
  retention_held : Q;
  net_payment_due : Q;
  ba_status : string;
  payment_date : option Z;
  line_items : list BillingLineItem;
}.

(** [{line[key]: f(line) for line in sov_lines}]: a later line overwrites an
    earlier one of the same id. *)
Definition dict_of_lines {A} (f : SovLine -> A) (sov_lines : list SovLine)
    : gmap string A :=
  foldl (fun d line => <[sov_line_id line := f line]> d) ∅ sov_lines.

(** [sum(d.values())]. *)
Definition sum_values (d : gmap string Z) : Z :=
  map_fold (fun _ v acc => v + acc) 0 d.

Record LaborLog := {
  ll_project_id : string;
  log_id : string;
  ll_date : Z;
  employee_id : string;
  ll_role : string;
  ll_sov_line_id : string;
  hours_st : Z;
  hours_ot : Z;
  ll_hourly_rate : Q;
  burden_multiplier : Q;
  work_area : string;
  cost_code : Z;
}.

(** The two iterations at most that the loop of [generate_labor_logs] and of
    [generate_field_notes] spends on a weekend: [current_date += 1; continue]
    while [current_date.weekday() >= 5]. *)
Definition skip_weekend (current_date : Z) : Z :=
  if 5 <=? weekday current_date then
    if 5 <=? weekday (current_date + 1) then current_date + 2
    else current_date + 1
  else current_date.

Record Delivery := {
  dl_project_id : string;
  delivery_id : string;
  dl_date : Z;
  dl_sov_line_id : string;
  material_category : string;
  item_description : string;
  quantity : Z;
  unit : string;
  unit_cost : Q;
  total_cost : Q;
  po_number : string;
  vendor : string;
  received_by : string;
  condition_notes : string;
}.

Record Rfi := {
  rf_project_id : string;
  rfi_number : string;
  date_submitted : Z;
  subject : string;
  submitted_by : string;
  assigned_to : string;
  priority : string;
  rf_status : string;
  date_required : Z;
  date_responded : option Z;
  response_summary : option string;
  cost_impact : bool;
  schedule_impact : bool;
}.

Definition RFI_SUBJECTS : list string := [
  "Coordination conflict with electrical conduit at grid {grid}";
  "Clarification needed on diffuser layout for {room}";
  "Structural penetration approval required at {location}";
  "Equipment access clearance insufficient per spec";
  "Ductwork routing conflicts with beam at elevation {elev}";
  "Control sequence clarification for {system}";
  "Pipe sleeve size discrepancy at {location}";
  "Seismic bracing requirements for equipment over {weight} lbs";
  "Fire damper location verification needed";
  "Insulation spec clarification for exterior application";
  "VAV box sizing appears undersized for zone CFM";
  "Refrigerant piping routing through {area} - approval needed";
  "Existing conditions differ from drawings at {location}";
  "Thermostat location conflicts with furniture layout";
  "Access panel requirements for concealed valves"
].

(** [template.format] with keyword arguments, for templates whose fields are plain names:
    [field] holds the name being read between the braces. *)
Fixpoint format_from (kw : list (string * string)) (field : option string)
    (template : string) : option string :=
  match template, field with
  | EmptyString, None => Some EmptyString
  | EmptyString, Some _ => None
  | String c rest, None =>
      if Ascii.eqb c "{"%char then format_from kw (Some EmptyString) rest
      else String c <$> format_from kw None rest
  | String c rest, Some name =>
      if Ascii.eqb c "}"%char then
        match list_find (fun kv => kv.1 = name) kw with
        | Some (_, kv) => (fun r => kv.2 +:+ r) <$> format_from kw None rest
        | None => None
        end
      else format_from kw (Some (name +:+ String c EmptyString)) rest
  end.
Definition str_format (template : string) (kw : list (string * string))
    : option string :=
  format_from kw None template.

(** [sorted(l, key=...)]: a stable sort, by insertion. *)
Fixpoint insert_by {A} (key : A -> Z) (x : A) (l : list A) : list A :=
  match l with
  | [] => [x]
  | y :: l' => if key x <=? key y then x :: y :: l' else y :: insert_by key x l'
  end.
Definition sorted_by {A} (key : A -> Z) (l : list A) : list A :=
  foldr (insert_by key) [] l.

(** The table [sov_to_materials] of lines 323-329. *)
Definition sov_to_materials : list (Z * string) := [
  (3, "Ductwork"); (4, "Ductwork");
  (5, "Piping"); (6, "Piping");
  (7, "Equipment"); (8, "Equipment"); (9, "Equipment");
  (10, "Controls"); (11, "Controls");
  (12, "Insulation")
].

(** The truth value of [response_date], a formatted date or [None]. *)
Definition not_none {A} (x : option A) : bool :=
  match x with Some _ => true | None => false end.

(** The truth value of [response_days], an [int] or [None]. *)
Definition truthy (response_days : option Z) : bool :=
  match response_days with
  | Some n => negb (n =? 0)
  | None => false
  end.

Section Generators.
Context {G E : Type} `{PRNG G} `{OsEntropy E}.

#[local] Abbreviation M := (M G E).

(** Lines 159-190. *)
Definition generate_contract_value (project : Project) : M Contract :=
  c1 ← random_uniform 85 120;
  c2 ← random_uniform 45 65;
  c3 ← random_uniform 55 75;
  c4 ← random_uniform 180 280;
  c5 ← random_uniform 35 50;
  let cost_per_sf :=
    [("Healthcare", c1); ("Commercial Office", c2); ("K-12 Education", c3);
     ("Data Center", c4); ("Multifamily Residential", c5)] in
  cost ← assoc cost_per_sf (prj_type project);
  let base_cost := (inject_Z (prj_sq_ft project) * cost)%Q in
  let complexity_mult := [("low", 0.9%Q); ("medium", 1.0%Q); ("high", 1.15%Q)] in
  mult ← assoc complexity_mult (prj_complexity project);
  let base_cost := (base_cost * mult)%Q in
  let base_cost := py_round (base_cost / 1000) * 1000 in
  d1 ← random_randint 0 90;
  d2 ← random_randint 0 90;
  gc ← random_choice ["Turner Construction"; "DPR Construction"; "Skanska USA";
                      "JE Dunn"; "Mortenson"];
  ar ← random_choice ["Gensler"; "HOK"; "Perkins&Will"; "HKS"; "SmithGroup"];
  en ← random_choice ["WSP"; "ARUP"; "Syska Hennessy"; "Henderson Engineers"; "AEI"];
  mret {| ct_project_id := prj_id project;
          ct_project_name := prj_name project;
          original_contract_value := base_cost;
          contract_date := DATE_2024_01_01 + d1;
          substantial_completion_date :=
            DATE_2024_01_01 + (d2 + prj_duration_months project * 30);
          retention_pct := 0.10%Q;
          payment_terms := "Net 30";
          gc_name := gc; architect := ar; engineer_of_record := en |}.

(** One iteration of the loop of lines 207-220. *)
Definition sov_line (project : Project) (contract_value : Z)
    (normalized_pcts : list Q) (i : nat) (item : SovTemplateItem) : M SovLine :=
  p ← index normalized_pcts i;
  let line_value := (inject_Z contract_value * p)%Q in
  let line_value := py_round (line_value / 100) * 100 in
  n ← from_option mret raise (int_of_str (tpl_code item));
  lp ← (if negb (str_contains "Equipment" (tpl_description item))
        then random_uniform 0.55 0.75 else random_uniform 0.15 0.30);
  mp ← (if negb (str_contains "Equipment" (tpl_description item))
        then random_uniform 0.25 0.45 else random_uniform 0.70 0.85);
  mret {| sl_project_id := prj_id project;
          sov_line_id := prj_id project +:+ "-SOV-" +:+ tpl_code item;
          line_number := n;
          sl_description := tpl_description item;
          scheduled_value := line_value;
          labor_pct := lp;
          material_pct := mp |}.

(** [sov_lines[-1]["scheduled_value"] += delta]. *)
Definition adjust_last (delta : Z) (sov_lines : list SovLine) : M (list SovLine) :=
  match sov_lines with
  | [] => raise
  | _ =>
      mret (alter (fun l => set_scheduled_value (scheduled_value l + delta) l)
                  (length sov_lines - 1)%nat sov_lines)
  end.

(** Lines 193-226. *)
Definition generate_sov (project : Project) (contract_value : Z) : M (list SovLine) :=
  raw_pcts ← mapM (fun item =>
                random_uniform (tpl_pct_range item).1 (tpl_pct_range item).2)
              SOV_TEMPLATE;
  let total_pct := Qsum raw_pcts in
  normalized_pcts ← mapM (fun p => fdiv p total_pct) raw_pcts;
  sov_lines ← mapM (fun '(i, item) =>
                 sov_line project contract_value normalized_pcts i item)
               (imap pair SOV_TEMPLATE);
  let current_total := Zsum (scheduled_value <$> sov_lines) in
  adjust_last (contract_value - current_total) sov_lines.

(** The S-curve of lines 687-695. *)
Definition progress_mult_of (month_pct : Q) : Q :=
  let progress_mult :=
    if Qltb month_pct 0.15 then (month_pct * 2)%Q
    else if Qltb month_pct 0.85 then (0.3 + (month_pct - 0.15) * 1.0)%Q
    else (0.95 + (month_pct - 0.85) * 0.33)%Q in
  Qmin progress_mult 1.0.

(** The target progress of a line, lines 706-715. *)
Definition target_pct_of (sov_num : Z) (progress_mult : Q) : Q :=
  let target_pct :=
    if sov_num <=? 2 then Qmin (progress_mult * 1.3) 1.0
    else if sov_num <=? 9 then progress_mult
    else if sov_num <=? 12 then (Qmax (progress_mult - 0.15) 0 * 1.15)%Q
    else (Qmax (progress_mult - 0.3) 0 * 1.4)%Q in
  Qmin target_pct 1.0.

(** The loop variables of one month: the running [sov_billing], the
    [line_items] so far and [period_total]. *)
Definition MonthState : Type := gmap string Z * list BillingLineItem * Z.

(** One iteration of the loop over the lines, lines 701-742. *)
Definition bill_line (sov_values sov_numbers : gmap string Z) (progress_mult : Q)
    (st : MonthState) (sov_line : SovLine) : M MonthState :=
  let '(sov_billing, line_items, period_total) := st in
  let sov_id := sov_line_id sov_line in
  sov_num ← getitem sov_numbers sov_id;
  let target_pct := target_pct_of sov_num progress_mult in
  sv ← getitem sov_values sov_id;
  let target_amount := (inject_Z sv * target_pct)%Q in
  billed ← getitem sov_billing sov_id;
  let period_billing := Qmax (target_amount - inject_Z billed) 0 in
  u ← random_uniform 0.85 1.0;
  let period_billing := (period_billing * u)%Q in
  let period_billing := py_round (period_billing / 100) * 100 in
  let period_billing :=
    if billed + period_billing >? sv then sv - billed else period_billing in
  if period_billing >? 0 then
    let sov_billing := <[sov_id := billed + period_billing]> sov_billing in
    let period_total := period_total + period_billing in
    billed' ← getitem sov_billing sov_id;
    ratio ← fdiv (inject_Z billed') (inject_Z sv);
    mret (sov_billing,
          line_items ++ [
            {| li_sov_line_id := sov_id;
               li_description := sl_description sov_line;
               li_scheduled_value := sv;
               previous_billed := billed' - period_billing;
               this_period := period_billing;
               total_billed := billed';
               pct_complete := py_round_to 10 (ratio * 100);
               balance_to_finish := sv - billed' |}],
          period_total)
  else mret (sov_billing, line_items, period_total).

(** One iteration of the loop over the months, lines 683-759. *)
Definition bill_month (project : Project) (sov_lines : list SovLine)
    (sov_values sov_numbers : gmap string Z) (start_date : Z)
    (st : gmap string Z * list BillingApplication) (month : Z)
    : M (gmap string Z * list BillingApplication) :=
  let '(sov_billing, billing) := st in
  let project_duration_months := prj_duration_months project in
  let billing_date := start_date + (30 * month + 25) in
  month_pct ← fdiv (inject_Z month) (inject_Z project_duration_months);
  let progress_mult := progress_mult_of month_pct in
  '(sov_billing, line_items, period_total) ←
    foldM (bill_line sov_values sov_numbers progress_mult) sov_lines
          (sov_billing, [], 0);
  if period_total >? 0 then
    let cumulative := sum_values sov_billing in
    let retention := (inject_Z cumulative * 0.10)%Q in
    status ← (if month <? project_duration_months - 1
              then random_choice ["Paid"; "Paid"; "Paid"; "Pending"; "Approved"]
              else mret "Pending");
    r ← random_random;
    pay ← (if Qltb 0.2 r
           then d ← random_randint 25 40; mret (Some (billing_date + d))
           else mret None);
    mret (sov_billing,
          billing ++ [
            {| ba_project_id := prj_id project;
               application_number := month + 1;
               period_end := billing_date;
               period_total := period_total;
               cumulative_billed := cumulative;
               retention_held := retention;
               net_payment_due := (inject_Z cumulative - retention)%Q;
               ba_status := status;
               payment_date := pay;
               line_items := line_items |}])
  else mret (sov_billing, billing).

(** Lines 672-761.  [contract_value] is a parameter the body never reads. *)
Definition generate_billing_history (project : Project) (sov_lines : list SovLine)
    (contract_value : Z) (start_date : Z) : M (list BillingApplication) :=
  let project_duration_months := prj_duration_months project in
  let sov_billing := dict_of_lines (fun _ => 0) sov_lines in
  let sov_values := dict_of_lines scheduled_value sov_lines in
  let sov_numbers := dict_of_lines line_number sov_lines in
  '(_, billing) ←
    foldM (bill_month project sov_lines sov_values sov_numbers start_date)
          (seqZ 0 (project_duration_months + 1)) (sov_billing, []);
  mret billing.

(** Lines 288-294: the hours of one worker on one day, as
    [(hours_st, hours_ot)]. *)
Definition draw_hours : M (Z * Z) :=
  r ← random_random;
  if Qltb r 0.15 then
    hours_ot ← random_choice [2; 4];
    mret (8, hours_ot)
  else
    r' ← random_random;
    hours_st ← (if Qltb 0.1 r' then mret 8 else random_choice [4; 6; 10]);
    mret (hours_st, 0).

(** Lines 284-309: the entry of one worker. *)
Definition labor_entry (project : Project) (active_sov_lines : list SovLine)
    (current_date : Z) (worker : CrewRole) : M LaborLog :=
  assigned_sov ← random_choice active_sov_lines;
  '(hours_st, hours_ot) ← draw_hours;
  u ← uuid4;
  emp ← random_randint 1000 9999;
  floor ← random_randint 1 (prj_floors project);
  mret {| ll_project_id := prj_id project;
          log_id := str_take 8 u;
          ll_date := current_date;
          employee_id := "EMP-" +:+ pretty emp;
          ll_role := role worker;
          ll_sov_line_id := sov_line_id assigned_sov;
          hours_st := hours_st;
          hours_ot := hours_ot;
          ll_hourly_rate := hourly_rate worker;
          burden_multiplier := burden_rate worker;
          work_area := "Floor " +:+ pretty floor;
          cost_code := line_number assigned_sov |}.

Definition lines_numbered (numbers : list Z) (sov_lines : list SovLine)
    : list SovLine :=
  filter (fun l => line_number l ∈ numbers) sov_lines.

(** Lines 250-309: one working day, [day_count] days into the project. *)
Definition labor_day (project : Project) (sov_lines : list SovLine)
    (project_duration_days current_date day_count : Z) : M (list LaborLog) :=
  phase_pct ← fdiv (inject_Z day_count) (inject_Z project_duration_days);
  base_crew ← (if Qltb phase_pct 0.15 then random_randint 2 5
               else if Qltb phase_pct 0.75 then
                 (if String.eqb (prj_complexity project) "high"
                  then random_randint 8 18 else random_randint 5 12)
               else random_randint 3 7);
  let active_sov_lines :=
    if Qltb phase_pct 0.10 then lines_numbered [1; 2] sov_lines
    else if Qltb phase_pct 0.30 then lines_numbered [1; 2; 3; 4; 5] sov_lines
    else if Qltb phase_pct 0.60 then
      lines_numbered [1; 3; 4; 5; 6; 7; 8; 9] sov_lines
    else if Qltb phase_pct 0.85 then lines_numbered [1; 9; 10; 11; 12] sov_lines
    else lines_numbered [1; 11; 13; 14; 15] sov_lines in
  active_sov_lines ← (match active_sov_lines with
                      | [] => l ← index sov_lines 0; mret [l]
                      | _ => mret active_sov_lines
                      end);
  let n_roles := Z.of_nat (length CREW_ROLES) in
  workers_assigned ← random_sample CREW_ROLES (Z.min base_crew n_roles);
  extra ← (if base_crew >? n_roles then
             let common_roles :=
               filter (fun r => str_contains "Journeyman" (role r)
                                || str_contains "Apprentice" (role r))
                      CREW_ROLES in
             mapM (fun _ => random_choice common_roles)
                  (seqZ 0 (base_crew - n_roles))
           else mret []);
  mapM (labor_entry project active_sov_lines current_date)
       (workers_assigned ++ extra).

(** The loop of lines 244-312, with [n] working days left to log. *)
Fixpoint labor_days (n : nat) (project : Project) (sov_lines : list SovLine)
    (project_duration_days current_date day_count : Z) (logs : list LaborLog)
    : M (list LaborLog) :=
  match n with
  | O => mret logs
  | S n' =>
      let current_date := skip_weekend current_date in
      entries ← labor_day project sov_lines project_duration_days
                          current_date day_count;
      labor_days n' project sov_lines project_duration_days
                 (current_date + 1) (day_count + 1) (logs ++ entries)
  end.

(** Lines 229-314.  The dictionary [sov_labor_budgets] of lines 235-239 is
    built and never read; it is left out. *)
Definition generate_labor_logs (project : Project) (sov_lines : list SovLine)
    (start_date : Z) : M (list LaborLog) :=
  let project_duration_days := prj_duration_months project * 22 in
  labor_days (Z.to_nat project_duration_days) project sov_lines
             project_duration_days start_date 0 [].

(** Lines 367-394: the quantity and the unit of an item. *)
Definition draw_quantity (item : string) : M (Z * string) :=
  if str_contains "RTU" item || str_contains "Chiller" item
     || str_contains "Boiler" item || str_contains "AHU" item then
    qty ← random_randint 1 4; mret (qty, "EA")
  else if str_contains "Sheet Metal" item then
    qty ← random_randint 20 100; mret (qty, "SHEET")
  else if str_contains "Duct" item then
    qty ← random_randint 50 500; mret (qty, "LF")
  else if str_contains "Pipe" item || str_contains "Copper" item
          || str_contains "Steel" item then
    qty ← random_randint 100 1000; mret (qty, "LF")
  else if str_contains "VAV" item || str_contains "FCU" item then
    qty ← random_randint 5 40; mret (qty, "EA")
  else if str_contains "Controller" item || str_contains "Sensor" item
          || str_contains "Actuator" item then
    qty ← random_randint 10 100; mret (qty, "EA")
  else
    qty ← random_randint 5 50; mret (qty, "EA").

(** Lines 352-411: one delivery of [value] against [sov_line]. *)
Definition delivery (project : Project) (sov_line : SovLine)
    (material_cat : string) (cat_info : MaterialCategory)
    (project_duration_days start_date : Z) (value : Q) : M Delivery :=
  let days := inject_Z project_duration_days in
  day_offset ← (if line_number sov_line <=? 4 then
                  random_randint 15 (py_int (days * 0.4))
                else if line_number sov_line <=? 9 then
                  random_randint (py_int (days * 0.15)) (py_int (days * 0.7))
                else
                  random_randint (py_int (days * 0.4)) (py_int (days * 0.9)));
  let delivery_date := start_date + day_offset in
  item ← random_choice (items cat_info);
  '(qty, unit) ← draw_quantity item;
  unit_cost ← fdiv value (inject_Z qty);
  u ← uuid4;
  po ← random_randint 10000 99999;
  vendor ← random_choice ["Ferguson Supply"; "Winsupply"; "RE Michel";
                          "ACR Group"; "Carrier Enterprise"; "Johnstone Supply"];
  received_by ← random_choice ["J. Martinez"; "K. Thompson"; "R. Williams";
                               "M. Chen"; "D. Patel"];
  notes ← random_choice ["Good condition"; "Good condition"; "Good condition";
                         "Minor packaging damage - product OK";
                         "Partial shipment - backorder pending"; "Good condition"];
  mret {| dl_project_id := prj_id project;
          delivery_id := "DEL-" +:+ str_last 3 (prj_id project) +:+ "-"
                         +:+ str_take 6 u;
          dl_date := delivery_date;
          dl_sov_line_id := sov_line_id sov_line;
          material_category := material_cat;
          item_description := item;
          quantity := qty;
          unit := unit;
          unit_cost := py_round_to 100 unit_cost;
          total_cost := py_round_to 100 value;
          po_number := "PO-" +:+ pretty po;
          vendor := vendor;
          received_by := received_by;
          condition_notes := notes |}.

(** Lines 331-411: the deliveries of one SOV line. *)
Definition line_deliveries (project : Project) (project_duration_days start_date : Z)
    (sov_line : SovLine) : M (list Delivery) :=
  match list_find (fun kv => kv.1 = line_number sov_line) sov_to_materials with
  | None => mret []
  | Some (_, (_, material_cat)) =>
      cat_info ← from_option mret raise
                   (snd <$> list_find (fun c => category c = material_cat)
                                      MATERIAL_CATEGORIES);
      let material_budget :=
        (inject_Z (scheduled_value sov_line) * material_pct sov_line)%Q in
      num_deliveries ← random_randint 3 8;
      delivery_values ← mapM (fun _ => random_random) (seqZ 0 num_deliveries);
      let total := Qsum delivery_values in
      delivery_values ← mapM (fun v => q ← fdiv v total; mret (q * material_budget)%Q)
                             delivery_values;
      mapM (delivery project sov_line material_cat cat_info
                     project_duration_days start_date)
           delivery_values
  end.

(** Lines 317-413. *)
Definition generate_material_deliveries (project : Project)
    (sov_lines : list SovLine) (start_date : Z) : M (list Delivery) :=
  let project_duration_days := prj_duration_months project * 30 in
  deliveries ← mapM (line_deliveries project project_duration_days start_date)
                    sov_lines;
  mret (sorted_by dl_date (concat deliveries)).

(** [f"{random.choice('ABCDEFGH')}-{random.randint(1, 12)}"]. *)
Definition draw_grid : M string :=
  c ← random_choice ["A"; "B"; "C"; "D"; "E"; "F"; "G"; "H"];
  n ← random_randint 1 12;
  mret (c +:+ "-" +:+ pretty n).

(** Lines 500-545: the RFI of index [i]. *)
Definition rfi (project : Project) (project_duration_days start_date : Z)
    (i : Z) : M Rfi :=
  day_offset ← random_randint 14 (project_duration_days - 14);
  let submit_date := start_date + day_offset in
  response_days ← random_choices1
                    [Some 3; Some 5; Some 7; Some 10; Some 14; Some 21; None]
                    [0.15; 0.25; 0.25; 0.15; 0.10; 0.05; 0.05]%Q;
  let response_date :=
    if truthy response_days
    then Some (submit_date + default 0 response_days) else None in
  subject_template ← random_choice RFI_SUBJECTS;
  grid ← draw_grid;
  room ← random_randint 100 600;
  floor ← random_randint 1 (prj_floors project);
  grid' ← draw_grid;
  elev ← random_randint 10 50;
  system ← random_choice ["AHU-1"; "CHW Loop"; "HW Loop"; "Exhaust System";
                          "VAV Zone 3"];
  area ← random_choice ["mechanical room"; "ceiling plenum"; "exterior wall";
                        "elevator shaft"];
  weight ← random_choice ["500"; "1000"; "2000"];
  subject ← from_option mret raise
              (str_format subject_template
                 [("grid", grid);
                  ("room", "Room " +:+ pretty room);
                  ("location", "Floor " +:+ pretty floor +:+ ", Grid " +:+ grid');
                  ("elev", "+" +:+ pretty elev +:+ "'-0" +:+ inch);
                  ("system", system); ("area", area); ("weight", weight)]);
  status ← (if not_none response_date then mret "Closed"
            else random_choice ["Open"; "Pending Response"]);
  submitted_by ← random_choice ["J. Martinez - Project Manager";
                                "K. Thompson - Foreman"; "R. Williams - Engineer"];
  assigned_to ← random_choice ["Architect"; "MEP Engineer"; "Structural Engineer";
                               "Owner"];
  priority ← random_choices1 ["Low"; "Medium"; "High"; "Critical"]
                             [0.2; 0.45; 0.25; 0.10]%Q;
  required ← random_randint 7 21;
  summary ← (if not_none response_date then
               asi ← random_randint 1 20;
               trade ← random_choice ["electrical"; "plumbing"; "structural"];
               summary ← random_choice
                 ["Proceed as noted in attached sketch.";
                  "Refer to ASI-" +:+ pretty asi +:+ " for clarification.";
                  "Approved as submitted.";
                  "Revise per attached markup.";
                  "Coordinate with " +:+ trade +:+ " contractor."];
               mret (Some summary)
             else mret None);
  cost ← random_choice [true; false; false; false];
  schedule ← random_choice [true; false; false; false; false];
  mret {| rf_project_id := prj_id project;
          rfi_number := "RFI-" +:+ zfill 3 (pretty (i + 1));
          date_submitted := submit_date;
          subject := subject;
          submitted_by := submitted_by;
          assigned_to := assigned_to;
          priority := priority;
          rf_status := status;
          date_required := submit_date + required;
          date_responded := response_date;
          response_summary := summary;
          cost_impact := cost;
          schedule_impact := schedule |}.

(** Lines 487-547. *)
Definition generate_rfis (project : Project) (start_date : Z) : M (list Rfi) :=
  n_low ← random_randint 15 30;
  n_medium ← random_randint 30 60;
  n_high ← random_randint 50 100;
  num_rfis ← assoc [("low", n_low); ("medium", n_medium); ("high", n_high)]
                   (prj_complexity project);
  let project_duration_days := prj_duration_months project * 30 in
  rfis ← mapM (rfi project project_duration_days start_date) (seqZ 0 num_rfis);
  mret (sorted_by date_submitted rfis).

(** The head of the loop body of [main], lines 887-900: the contract, the
    schedule of values and the labor logs of one project. *)
Definition main_labor_logs (project : Project) : M (list LaborLog) :=
  contract ← generate_contract_value project;
  let contract_value := original_contract_value contract in
  let start_date := contract_date contract in
  sov_lines ← generate_sov project contract_value;
  generate_labor_logs project sov_lines start_date.
End Generators.

(** ** A concrete host

    A linear congruential generator for [random] and a counter for the
    operating system's entropy: the host the examples below run on. *)

Definition lcg_next (s : Z) : Z := (s * 1103515245 + 12345) mod 2147483648.

#[global] Instance lcg_prng : PRNG Z := {|
  prng_seed n := n mod 2147483648;
  prng_random s := (Qmake (lcg_next s) 2147483648, lcg_next s);
  prng_randbelow n s := (Z.to_nat ((lcg_next s / 65536) mod Z.of_nat n), lcg_next s);
|}.

#[global] Instance counter_entropy : OsEntropy Z := {|
  os_uuid4 e := (zfill 8 (pretty e) +:+ "-0000-4000-8000-000000000000", e + 1);
|}.

(** The host after [random.seed(seed)], with the entropy pool at [e]. *)
Definition boot (seed e : Z) : World Z Z := mkWorld (prng_seed seed) e.

(** ** Change orders

    [generate_change_orders], lines 416-484.  It reads the clock
    ([datetime.now()], line 449) once for every change order: the clock is the
    function [now], from the index of the change order to the date it reads.
    The age [(datetime.now() - co_date).days] is the difference of the two
    dates, [co_date] being a midnight. *)

(** The indices [random.sample] selects when the population has more than 21
    elements: [k] draws of [_randbelow(n)], each repeated while it gives an
    index already selected.  Like [_randbelow] itself, the loop is taken
    from the library as a primitive of the generator. *)
Class PRNGSelect (G : Type) := {
  prng_select : nat -> nat -> G -> list nat * G;
}.



Section ChangeOrders.
Context {G E : Type} `{PRNG G} `{OsEntropy E} `{PRNGSelect G}.

#[local] Abbreviation M := (M G E).



End ChangeOrders.

(** The stand-in host draws an index again while it is one already selected,
    64 times at most. *)
Fixpoint lcg_select_one (fuel n : nat) (selected : list nat) (s : Z) : nat * Z :=
  match fuel with
  | O => (O, s)
  | S fuel' =>
      let r := prng_randbelow n s in
      if bool_decide (r.1 ∈ selected) then lcg_select_one fuel' n selected r.2
      else r
  end.

Fixpoint lcg_select (k n : nat) (selected : list nat) (s : Z) : list nat * Z :=
  match k with
  | O => ([], s)
  | S k' =>
      let r := lcg_select_one 64 n selected s in
      let rs := lcg_select k' n (r.1 :: selected) r.2 in
      (r.1 :: rs.1, rs.2)
  end.

#[global] Instance lcg_prng_select : PRNGSelect Z := {|
  prng_select n k s := lcg_select k n [] s;
|}.

(** ** Predicates of the statements and of the loop invariants *)

(** What the proofs read off an item of [SOV_TEMPLATE]. *)
Definition template_ok (item : SovTemplateItem) : bool :=
  Qltb 0 (tpl_pct_range item).1
  && Qle_bool (tpl_pct_range item).1 (tpl_pct_range item).2
  && bool_decide (is_Some (int_of_str (tpl_code item))).

(** [m1] and [m2] have the same keys and [m1] is below [m2] at each of them. *)
Definition map_le (m1 m2 : gmap string Z) : Prop :=
  forall k, match m1 !! k, m2 !! k with
            | Some a, Some b => a <= b
            | None, None => True
            | _, _ => False
            end.

(** One line item: what was billed before and in the period, under the cap. *)
Definition item_ok (sov_values : gmap string Z) (li : BillingLineItem) : Prop :=
  total_billed li <= li_scheduled_value li /\
  sov_values !! li_sov_line_id li = Some (li_scheduled_value li) /\
  0 < this_period li /\
  total_billed li = previous_billed li + this_period li.

Definition all_zero (m : gmap string Z) : Prop :=
  forall k v, m !! k = Some v -> v = 0.

(** Every line has an entry of [sb], and none is negative. *)
Definition billed_ok (lines : list SovLine) (sb : gmap string Z) : Prop :=
  forall line, line ∈ lines ->
    exists billed, sb !! sov_line_id line = Some billed /\ 0 <= billed.

(** One application record, whatever the month. *)
Definition app_ok (svals : gmap string Z) (start : Z) (a : BillingApplication)
    : Prop :=
  0 < period_total a /\
  period_end a = start + (30 * (application_number a - 1) + 25) /\
  retention_held a = (inject_Z (cumulative_billed a) * 0.10)%Q /\
  net_payment_due a = (inject_Z (cumulative_billed a) - retention_held a)%Q /\
  Forall (item_ok svals) (line_items a).

(** The order of two application records of one history. *)
Definition app_lt (a b : BillingApplication) : Prop :=
  application_number a < application_number b /\
  cumulative_billed a < cumulative_billed b.

(** The loop invariant of [generate_billing_history] after [i] months. *)
Definition billing_inv (svals sb0 : gmap string Z) (start : Z) (i : nat)
    (st : gmap string Z * list BillingApplication) : Prop :=
  (map_le sb0 svals -> map_le st.1 svals) /\
  ((i <= 1)%nat -> st.1 = sb0 /\ st.2 = []) /\
  Forall (fun a => app_ok svals start a /\
                   2 <= application_number a <= Z.of_nat i /\
                   cumulative_billed a <= sum_values st.1) st.2 /\
  StronglySorted app_lt st.2 /\
  (length st.2 <= i - 1)%nat.

(** The hours of a log entry, as lines 288-294 leave them. *)
Definition hours_ok (e : LaborLog) : Prop :=
  (0 < hours_ot e -> hours_st e = 8 /\ 2 <= hours_ot e <= 4) /\
  (hours_ot e = 0 -> hours_st e ∈ [4; 6; 8; 10]) /\
  hours_ot e ∈ [0; 2; 4].

(** The response of an RFI, as lines 504-523 leave it: [response_days] is the
    delay that was drawn, [None] when none was. *)
Definition rfi_ok (r : Rfi) : Prop :=
  (is_Some (date_responded r) <-> rf_status r = "Closed") /\
  exists response_days : option Z,
    response_days ∈ [Some 3; Some 5; Some 7; Some 10; Some 14; Some 21; None] /\
    (response_days = None ->
       date_responded r = None /\ rf_status r ∈ ["Open"; "Pending Response"]) /\
    (forall n, response_days = Some n ->
       date_responded r = Some (date_submitted r + n) /\ rf_status r = "Closed").

(** Two hosts that agree on the state of [random]. *)
Definition same_rng {G E} (w1 w2 : World G E) : Prop := w_rng w1 = w_rng w2.

(** Two runs of [c1] and [c2] from hosts that agree on the state of [random]
    both raise, or return values related by [R] in hosts that agree again. *)
Definition rel {G E A} (R : A -> A -> Prop) (c1 c2 : M G E A) : Prop :=
  forall w1 w2, same_rng w1 w2 ->
    match c1 w1, c2 w2 with
    | Some (a1, w1'), Some (a2, w2') => R a1 a2 /\ same_rng w1' w2'
    | None, None => True
    | _, _ => False
    end.

(** [c] leaves the entropy pool of the operating system as it finds it. *)
Definition keeps_os {G E A} (c : M G E A) : Prop :=
  forall w a w', c w = Some (a, w') -> w_os w' = w_os w.

(** The next [n] results of [uuid.uuid4()], and the pool after them. *)
Fixpoint uuids {E} `{OsEntropy E} (n : nat) (e : E) : list string * E :=
  match n with
  | O => ([], e)
  | S n' =>
      let r := os_uuid4 e in
      let rs := uuids n' r.2 in
      (r.1 :: rs.1, rs.2)
  end.

(** The [log_id] of the entries [c] returns are the first eight characters of
    the results of [uuid.uuid4()], one for each entry and in their order. *)
Definition log_ids_from_os {G E} `{OsEntropy E} (c : M G E (list LaborLog)) : Prop :=
  forall w logs w', c w = Some (logs, w') ->
    log_id <$> logs = str_take 8 <$> (uuids (length logs) (w_os w)).1 /\
    w_os w' = (uuids (length logs) (w_os w)).2.

(** Two log entries that differ in [log_id] at most. *)
Definition same_but_log_id (e1 e2 : LaborLog) : Prop :=
  ll_project_id e1 = ll_project_id e2 /\ ll_date e1 = ll_date e2 /\
  employee_id e1 = employee_id e2 /\ ll_role e1 = ll_role e2 /\
  ll_sov_line_id e1 = ll_sov_line_id e2 /\ hours_st e1 = hours_st e2 /\
  hours_ot e1 = hours_ot e2 /\ ll_hourly_rate e1 = ll_hourly_rate e2 /\
  burden_multiplier e1 = burden_multiplier e2 /\ work_area e1 = work_area e2 /\
  cost_code e1 = cost_code e2.

(** ** A worked example: a twelve-month project of 1,000,000 *)

Definition example_project : Project :=
  {| prj_id := "PRJ-2024-900"; prj_name := "Example Clinic - HVAC Retrofit";
     prj_type := "Healthcare"; prj_location := "Reno, NV";
     prj_sq_ft := 10000; prj_floors := 3; prj_duration_months := 12;
     prj_complexity := "medium" |}.

Definition example_start : Z := DATE_2024_01_01 + 14.

Definition example_sov : list SovLine :=
  Eval vm_compute in
    match generate_sov example_project 1000000 (boot 42 0) with
    | Some (lines, _) => lines
    | None => []
    end.

Definition example_sov_world : World Z Z :=
  Eval vm_compute in
    match generate_sov example_project 1000000 (boot 42 0) with
    | Some (_, w) => w
    | None => boot 42 0
    end.

Definition example_billing : list BillingApplication :=
  Eval vm_compute in
    match generate_billing_history example_project example_sov 1000000
            example_start example_sov_world with
    | Some (apps, _) => apps
    | None => []
    end.

Definition example_billing_world : World Z Z :=
  Eval vm_compute in
    match generate_billing_history example_project example_sov 1000000
            example_start example_sov_world with
    | Some (_, w) => w
    | None => boot 42 0
    end.

(** The same project on a contract of 2,000: the residual of the rounding
    leaves the last line of the schedule negative. *)
Definition small_sov : list SovLine :=
  Eval vm_compute in
    match generate_sov example_project 2000 (boot 42 0) with
    | Some (lines, _) => lines
    | None => []
    end.

Definition small_sov_world : World Z Z :=
  Eval vm_compute in
    match generate_sov example_project 2000 (boot 42 0) with
    | Some (_, w) => w
    | None => boot 42 0
    end.

Definition small_billing : list BillingApplication :=
  Eval vm_compute in
    match generate_billing_history example_project small_sov 2000
            example_start small_sov_world with
    | Some (apps, _) => apps
    | None => []
    end.

Definition small_billing_world : World Z Z :=
  Eval vm_compute in
    match generate_billing_history example_project small_sov 2000
            example_start small_sov_world with
    | Some (_, w) => w
    | None => boot 42 0
    end.

Definition short_project : Project :=
  {| prj_id := "PRJ-2024-901"; prj_name := "Example Annex - Controls Upgrade";
     prj_type := "Commercial Office"; prj_location := "Boise, ID";
     prj_sq_ft := 4000; prj_floors := 2; prj_duration_months := 2;
     prj_complexity := "low" |}.

Definition example_logs : list LaborLog :=
  Eval vm_compute in
    match generate_labor_logs short_project example_sov example_start
            example_sov_world with
    | Some (logs, _) => logs
    | None => []
    end.

Definition example_logs_world : World Z Z :=
  Eval vm_compute in
    match generate_labor_logs short_project example_sov example_start
            example_sov_world with
    | Some (_, w) => w
    | None => example_sov_world
    end.

Definition example_deliveries : list Delivery :=
  Eval vm_compute in
    match generate_material_deliveries example_project example_sov example_start
            example_sov_world with
    | Some (deliveries, _) => deliveries
    | None => []
    end.

Definition example_deliveries_world : World Z Z :=
  Eval vm_compute in
    match generate_material_deliveries example_project example_sov example_start
            example_sov_world with
    | Some (_, w) => w
    | None => example_sov_world
    end.

Definition example_rfis : list Rfi :=
  Eval vm_compute in
    match generate_rfis short_project example_start example_sov_world with
    | Some (rfis, _) => rfis
    | None => []
    end.

Definition example_rfis_world : World Z Z :=
  Eval vm_compute in
    match generate_rfis short_project example_start example_sov_world with
    | Some (_, w) => w
    | None => example_sov_world
    end.

(** Two runs of the head of [main] on one seed, with the entropy pool of the
    operating system in two states. *)
Definition first_run : option (list LaborLog * World Z Z) :=
  Eval vm_compute in main_labor_logs short_project (boot 42 0).
Definition second_run : option (list LaborLog * World Z Z) :=
  Eval vm_compute in main_labor_logs short_project (boot 42 1000).


(** ** More predicates and tables of the statements *)


























(** * Facts *)

(** ** Sums *)

Lemma foldl_Zadd (a : Z) (l : list Z) : foldl Z.add a l = a + foldl Z.add 0 l.
Proof.
  revert a. induction l as [|x l IH]; intros a; simpl; [lia|].
  rewrite (IH (a + x)), (IH (0 + x)). lia.
Qed.

Lemma Zsum_nil : Zsum [] = 0.
Proof. reflexivity. Qed.

Lemma Zsum_cons (x : Z) (l : list Z) : Zsum (x :: l) = x + Zsum l.
Proof. unfold Zsum. simpl. rewrite foldl_Zadd. lia. Qed.

Lemma Zsum_app (l1 l2 : list Z) : Zsum (l1 ++ l2) = Zsum l1 + Zsum l2.
Proof.
  induction l1 as [|x l1 IH]; simpl; [by rewrite Zsum_nil|].
  rewrite !Zsum_cons, IH. lia.
Qed.

Lemma foldl_Qplus (a : Q) (l : list Q) : (foldl Qplus a l == a + foldl Qplus 0 l)%Q.
Proof.
  revert a. induction l as [|x l IH]; intros a; simpl; [lra|].
  rewrite (IH (a + x)%Q), (IH (0 + x)%Q). lra.
Qed.

Lemma Qsum_nil : Qsum [] = 0%Q.
Proof. reflexivity. Qed.

Lemma Qsum_cons (x : Q) (l : list Q) : (Qsum (x :: l) == x + Qsum l)%Q.
Proof. unfold Qsum. simpl. rewrite foldl_Qplus. lra. Qed.

Lemma Qsum_app (l1 l2 : list Q) : (Qsum (l1 ++ l2) == Qsum l1 + Qsum l2)%Q.
Proof.
  induction l1 as [|x l1 IH]; simpl.
  - unfold Qsum at 2. simpl. lra.
  - rewrite !Qsum_cons, IH. lra.
Qed.

Lemma Qsum_pos (l : list Q) : Forall (fun p => (0 < p)%Q) l -> l <> [] -> (0 < Qsum l)%Q.
Proof.
  induction 1 as [|x l Hx Hl IH]; [done|]. intros _. rewrite Qsum_cons.
  destruct l as [|y l]; [unfold Qsum; simpl; lra|].
  assert (0 < Qsum (y :: l))%Q by (by apply IH). lra.
Qed.

Lemma Qsum_nonneg (l : list Q) : Forall (fun p => (0 <= p)%Q) l -> (0 <= Qsum l)%Q.
Proof.
  induction 1 as [|x l Hx _ IH]; [apply Qle_refl|]. rewrite Qsum_cons. lra.
Qed.

Lemma Qsum_le (l1 l2 : list Q) :
  Forall2 Qle l1 l2 -> (Qsum l1 <= Qsum l2)%Q.
Proof.
  induction 1 as [|x y l1 l2 Hxy _ IH]; [apply Qle_refl|].
  rewrite !Qsum_cons. lra.
Qed.

Lemma Qsum_div (t : Q) (l : list Q) :
  (Qsum ((fun r => r / t) <$> l) == Qsum l / t)%Q.
Proof.
  induction l as [|x l IH]; simpl.
  - unfold Qsum. simpl. unfold Qdiv. ring.
  - rewrite !Qsum_cons, IH. unfold Qdiv. ring.
Qed.

Lemma Qsum_scaled (t b : Q) (raws values : list Q) :
  Forall2 (fun v q => q = (v / t * b)%Q) raws values ->
  (Qsum values == Qsum raws / t * b)%Q.
Proof.
  induction 1 as [|v q raws values -> _ IH].
  - rewrite !Qsum_nil. unfold Qdiv. ring.
  - rewrite !Qsum_cons, IH. unfold Qdiv. ring.
Qed.

Lemma Qsum_Permutation (l1 l2 : list Q) : l1 ≡ₚ l2 -> (Qsum l1 == Qsum l2)%Q.
Proof.
  induction 1 as [|x l1 l2 _ IH|x y l|l1 l2 l3 _ IH1 _ IH2].
  - reflexivity.
  - rewrite !Qsum_cons, IH. reflexivity.
  - rewrite !Qsum_cons. lra.
  - by rewrite IH1.
Qed.

(** ** Comparisons and rounding *)

Lemma inject_Z_nonzero (z : Z) : z <> 0 -> ~ (inject_Z z == 0)%Q.
Proof. unfold Qeq. simpl. lia. Qed.

Lemma Qltb_lt (a b : Q) : Qltb a b = true <-> (a < b)%Q.
Proof.
  unfold Qltb. rewrite negb_true_iff, <- not_true_iff_false, Qle_bool_iff.
  split; [apply Qnot_le_lt|apply Qlt_not_le].
Qed.

Lemma Qmin_zero (a b : Q) : (a == 0)%Q -> (0 < b)%Q -> (Qmin a b == 0)%Q.
Proof.
  intros Ha Hb. unfold Qmin. destruct (Qltb b a) eqn:Hlt; [|done].
  apply Qltb_lt in Hlt. lra.
Qed.

Lemma Qmax_neg (a : Q) : (a < 0)%Q -> Qmax a 0 = 0%Q.
Proof. intros Ha. unfold Qmax. apply Qltb_lt in Ha. by rewrite Ha. Qed.

Lemma Qmax_zero (a : Q) : (a == 0)%Q -> (Qmax a 0 == 0)%Q.
Proof. intros Ha. unfold Qmax. by destruct (Qltb a 0). Qed.

(** Rounding *)
Lemma py_round_close (x : Q) : (Qabs (x - inject_Z (py_round x)) <= 1 # 2)%Q.
Proof.
  unfold py_round.
  pose proof (Qfloor_le x) as Hlo. pose proof (Qlt_floor x) as Hhi.
  rewrite inject_Z_plus in Hhi. change (inject_Z 1) with 1%Q in Hhi.
  destruct (x - inject_Z (Qfloor x) ?= 1 # 2)%Q eqn:Hc.
  - apply Qeq_alt in Hc.
    destruct (Z.even (Qfloor x));
      [|rewrite inject_Z_plus; change (inject_Z 1) with 1%Q];
      apply Qabs_Qle_condition; split; lra.
  - apply Qlt_alt in Hc. apply Qabs_Qle_condition; split; lra.
  - apply Qgt_alt in Hc. rewrite inject_Z_plus. change (inject_Z 1) with 1%Q.
    apply Qabs_Qle_condition; split; lra.
Qed.

Lemma py_round_le (x : Q) : (inject_Z (py_round x) <= x + (1 # 2))%Q.
Proof.
  pose proof (py_round_close x) as Hc. apply Qabs_Qle_condition in Hc. lra.
Qed.


Lemma py_round_nonneg (x : Q) : (0 <= x)%Q -> 0 <= py_round x.
Proof.
  intros Hx. unfold py_round.
  assert (0 <= Qfloor x).
  { change 0 with (Qfloor 0). by apply Qfloor_resp_le. }
  repeat case_match; lia.
Qed.

Lemma py_round_comp (x y : Q) : (x == y)%Q -> py_round x = py_round y.
Proof.
  intros Hxy. unfold py_round. rewrite (Qfloor_comp x y Hxy).
  assert (((x - inject_Z (Qfloor y))%Q ?= 1 # 2)%Q =
          ((y - inject_Z (Qfloor y))%Q ?= 1 # 2)%Q) as -> by (by rewrite Hxy).
  done.
Qed.

Lemma py_round_zero (x : Q) : (x == 0)%Q -> py_round x = 0.
Proof. intros Hx. by rewrite (py_round_comp x 0 Hx). Qed.

Lemma py_round_to_close (x : Q) : (Qabs (py_round_to 100 x - x) <= 1 # 200)%Q.
Proof.
  unfold py_round_to. pose proof (py_round_close (x * inject_Z 100)) as Hc.
  apply Qabs_Qle_condition in Hc. apply Qabs_Qle_condition.
  change (inject_Z 100) with 100%Q in *.
  set (r := inject_Z (py_round (x * 100))) in *.
  assert (r / 100 == r * (1 # 100))%Q as -> by (unfold Qdiv; reflexivity).
  split; lra.
Qed.

Lemma Qsum_rounded (values costs : list Q) :
  Forall2 (fun v c => c = py_round_to 100 v) values costs ->
  (Qabs (Qsum costs - Qsum values) <= (1 # 200) * inject_Z (Z.of_nat (length costs)))%Q.
Proof.
  induction 1 as [|v c values costs -> _ IH].
  - rewrite !Qsum_nil. cbn [length]. change (inject_Z (Z.of_nat 0)) with 0%Q.
    apply Qabs_Qle_condition. lra.
  - rewrite !Qsum_cons. cbn [length]. rewrite Nat2Z.inj_succ. unfold Z.succ.
    rewrite inject_Z_plus. change (inject_Z 1) with 1%Q.
    pose proof (py_round_to_close v) as Hv.
    apply Qabs_Qle_condition in Hv, IH. apply Qabs_Qle_condition. split; lra.
Qed.

(** The rounded lines exceed their exact shares by 50 each at most. *)
Lemma Zsum_rounded_le (cv : Z) (ps : list Q) :
  (inject_Z (Zsum ((fun p => (py_round (inject_Z cv * p / 100) * 100)%Z) <$> ps))
   <= inject_Z cv * Qsum ps + 50 * inject_Z (Z.of_nat (length ps)))%Q.
Proof.
  induction ps as [|p ps IH].
  - simpl. unfold Qsum. simpl. rewrite Zsum_nil.
    change (inject_Z (Z.of_nat 0)) with 0%Q. change (inject_Z 0) with 0%Q. lra.
  - rewrite fmap_cons, Zsum_cons, Qsum_cons. cbn [length].
    rewrite Nat2Z.inj_succ. unfold Z.succ.
    rewrite !inject_Z_plus, inject_Z_mult.
    change (inject_Z 1) with 1%Q. change (inject_Z 100) with 100%Q.
    pose proof (py_round_le (inject_Z cv * p / 100)) as Hp.
    assert (inject_Z cv * p / 100 == inject_Z cv * p * (1 # 100))%Q as Hdiv
      by (unfold Qdiv; reflexivity).
    rewrite Hdiv in Hp at 2. lra.
Qed.

(** ** Lists and strings *)

Lemma alter_last {A} (f : A -> A) (l : list A) (x : A) :
  alter f (length (l ++ [x]) - 1)%nat (l ++ [x]) = l ++ [f x].
Proof.
  rewrite length_app. simpl.
  replace (length l + 1 - 1)%nat with (length l + 0)%nat by lia.
  by rewrite alter_app_r.
Qed.

Lemma StronglySorted_weaken {A} (R R' : A -> A -> Prop) (l : list A) :
  (forall a b, R a b -> R' a b) -> StronglySorted R l -> StronglySorted R' l.
Proof.
  intros HR. induction 1 as [|a l _ IH Ha]; constructor; [done|].
  eapply Forall_impl; [exact Ha|]. apply HR.
Qed.

Lemma StronglySorted_lookup_lt {A} (R : relation A) (l : list A) i j x y :
  StronglySorted R l -> (i < j)%nat -> l !! i = Some x -> l !! j = Some y -> R x y.
Proof.
  intros Hs. revert i j. induction Hs as [|z l Hs IH Hz]; intros i j Hij Hi Hj.
  - done.
  - destruct j as [|j]; [lia|]. simpl in Hj. destruct i as [|i].
    + injection Hi as <-. eapply Forall_forall; [exact Hz|].
      by eapply list_elem_of_lookup_2.
    + simpl in Hi. apply (IH i j); [lia|done..].
Qed.

Lemma filter_all {A} (P : A -> Prop) `{!forall x, Decision (P x)} (l : list A) :
  Forall P l -> filter P l = l.
Proof.
  induction 1 as [|x l Hx _ IH]; [done|].
  rewrite filter_cons_True by done. by rewrite IH.
Qed.

Lemma filter_none {A} (P : A -> Prop) `{!forall x, Decision (P x)} (l : list A) :
  Forall (fun x => ~ P x) l -> filter P l = [].
Proof.
  induction 1 as [|x l Hx _ IH]; [done|].
  by rewrite filter_cons_False.
Qed.


Lemma insert_by_Permutation {A} (key : A -> Z) (x : A) (l : list A) :
  insert_by key x l ≡ₚ x :: l.
Proof.
  induction l as [|y l IH]; simpl; [done|].
  destruct (key x <=? key y); [done|]. rewrite IH. apply Permutation_swap.
Qed.

Lemma sorted_by_Permutation {A} (key : A -> Z) (l : list A) : sorted_by key l ≡ₚ l.
Proof.
  unfold sorted_by. induction l as [|x l IH]; simpl; [done|].
  by rewrite insert_by_Permutation, IH.
Qed.

(** ** The monad *)

Section MonadFacts.
Context {G E : Type}.
#[local] Abbreviation M := (M G E).

Lemma bind_Some {A B} (c : M A) (f : A -> M B) w b w2 :
  (c ≫= f) w = Some (b, w2) <-> exists a w1, c w = Some (a, w1) /\ f a w1 = Some (b, w2).
Proof.
  unfold mbind, M_bind. destruct (c w) as [[a w1]|]; split.
  - intros Hf. by exists a, w1.
  - intros (a' & w1' & [= -> ->] & Hf). done.
  - done.
  - intros (a' & w1' & [=] & _).
Qed.

Lemma ret_Some {A} (a : A) (w : World G E) a' w' :
  mret (M:=M) a w = Some (a', w') <-> a = a' /\ w = w'.
Proof. unfold mret, M_ret. split; [intros [= -> ->]|intros [-> ->]]; done. Qed.

Lemma bind_total {A B} (c : M A) (f : A -> M B) w :
  is_Some (c w) -> (forall a w1, c w = Some (a, w1) -> is_Some (f a w1)) ->
  is_Some ((c ≫= f) w).
Proof.
  intros [[a w1] Hc] Hf. unfold mbind, M_bind. rewrite Hc. by apply Hf.
Qed.

Lemma ret_total {A} (a : A) (w : World G E) : is_Some (mret (M:=M) a w).
Proof. by eexists. Qed.

Lemma mapM_Some {A B} (f : A -> M B) (l : list A) w ys w' :
  mapM f l w = Some (ys, w') ->
  Forall2 (fun x y => exists w1 w2, f x w1 = Some (y, w2)) l ys.
Proof.
  revert w ys w'. induction l as [|x l IH]; intros w ys w' Hm; simpl in Hm.
  - apply ret_Some in Hm as [<- _]. constructor.
  - apply bind_Some in Hm as (y & w1 & Hy & Hm).
    apply bind_Some in Hm as (ys' & w2 & Hys & Hm).
    apply ret_Some in Hm as [<- <-].
    constructor; [by exists w, w1 | eapply IH, Hys].
Qed.

Lemma mapM_total {A B} (f : A -> M B) (l : list A) w :
  (forall x w, x ∈ l -> is_Some (f x w)) -> is_Some (mapM f l w).
Proof.
  revert w. induction l as [|x l IH]; intros w Hf; simpl; [by eexists|].
  destruct (Hf x w) as [[y w1] Hy]; [left|].
  destruct (IH w1) as [[ys w2] Hys]; [intros; apply Hf; by right|].
  unfold mbind, M_bind. rewrite Hy, Hys. by eexists.
Qed.

Lemma mapM_length {A B} (f : A -> M B) (l : list A) (w w' : World G E) ys :
  mapM f l w = Some (ys, w') -> length ys = length l.
Proof. intros Hm%mapM_Some. symmetry. by eapply Forall2_length. Qed.

Lemma mapM_Forall {A B} (P : B -> Prop) (f : A -> M B) (l : list A)
    (w w' : World G E) ys :
  (forall x w y w', x ∈ l -> f x w = Some (y, w') -> P y) ->
  mapM f l w = Some (ys, w') -> Forall P ys.
Proof.
  intros Hf Hm%mapM_Some.
  induction Hm as [|x y l ys (w1 & w2 & Hy) _ IH]; constructor.
  - eapply Hf; [left|exact Hy].
  - apply IH. intros. eapply Hf; [by right|done].
Qed.

Lemma foldM_invariant {A S} (I : S -> Prop) (f : S -> A -> M S) (l : list A) s w s' w' :
  (forall s x w s' w', x ∈ l -> I s -> f s x w = Some (s', w') -> I s') ->
  I s -> foldM f l s w = Some (s', w') -> I s'.
Proof.
  revert s w. induction l as [|x l IH]; intros s w Hf Hs Hm; simpl in Hm.
  - by apply ret_Some in Hm as [<- _].
  - apply bind_Some in Hm as (s1 & w1 & H1 & Hm).
    eapply IH; [|  |exact Hm].
    + intros. eapply Hf; [by right| |]; eauto.
    + eapply Hf; [by left| |]; eauto.
Qed.

Lemma foldM_invariant_idx {A S} (I : nat -> S -> Prop) (f : S -> A -> M S)
    (l : list A) s (w : World G E) s' w' :
  (forall i s x w s' w', l !! i = Some x -> I i s -> f s x w = Some (s', w') ->
                         I (Datatypes.S i) s') ->
  I O s -> foldM f l s w = Some (s', w') -> I (length l) s'.
Proof.
  revert I s w. induction l as [|x l IH]; intros I s w Hf Hs Hm; simpl in Hm.
  - by apply ret_Some in Hm as [<- _].
  - apply bind_Some in Hm as (s1 & w1 & H1 & Hm). simpl.
    apply (IH (fun i => I (Datatypes.S i)) s1 w1); [|  |exact Hm].
    + intros i s2 y w2 s3 w3 Hy. apply (Hf (Datatypes.S i)). exact Hy.
    + eapply (Hf O); [done|exact Hs|exact H1].
Qed.

(** A loop raises nothing when no iteration does from a state of the
    invariant. *)
Lemma foldM_total {A S} (I : S -> Prop) (f : S -> A -> M S) (l : list A) s w :
  (forall s x w, x ∈ l -> I s -> is_Some (f s x w)) ->
  (forall s x w s' w', x ∈ l -> I s -> f s x w = Some (s', w') -> I s') ->
  I s -> is_Some (foldM f l s w).
Proof.
  revert s w. induction l as [|x l IH]; intros s w Htot Hstep Hs; simpl.
  - apply ret_total.
  - apply bind_total; [apply Htot; [by left|done]|].
    intros s1 w1 H1. apply IH.
    + intros. apply Htot; [by right|done].
    + intros. eapply Hstep; [by right| |]; eauto.
    + eapply Hstep; [by left|exact Hs|exact H1].
Qed.

End MonadFacts.

(** Strips the binds off a run [H : (x ← c; ...) w = Some _]. *)
Ltac peel Hm :=
  repeat (let a := fresh "a" in let w := fresh "w" in let Hr := fresh "Hrun" in
          apply bind_Some in Hm as (a & w & Hr & Hm)).

(** ** The host *)

(** The concrete host keeps the laws of the library. *)
#[global] Instance lcg_laws : PRNGLaws Z.
Proof.
  split.
  - intros g. simpl. unfold lcg_next, Qle, Qlt. simpl.
    pose proof (Z.mod_pos_bound (g * 1103515245 + 12345) 2147483648). lia.
  - intros n g Hn. simpl.
    pose proof (Z.mod_pos_bound (lcg_next g / 65536) (Z.of_nat n)). lia.
Qed.

Section HostFacts.
Context {G E : Type} `{PRNG G} `{OsEntropy E}.

Lemma index_Some {A} (l : list A) (i : nat) (w w' : World G E) x :
  index l i w = Some (x, w') <-> l !! i = Some x /\ w' = w.
Proof.
  unfold index. destruct (l !! i) as [y|].
  - rewrite ret_Some. split; [intros [-> ->]|intros [[= ->] ->]]; done.
  - split; [done|intros [[=] _]].
Qed.

Lemma getitem_Some {A} (d : gmap string A) k (w w' : World G E) x :
  getitem d k w = Some (x, w') <-> d !! k = Some x /\ w' = w.
Proof.
  unfold getitem. destruct (d !! k) as [y|].
  - rewrite ret_Some. split; [intros [-> ->]|intros [[= ->] ->]]; done.
  - split; [done|intros [[=] _]].
Qed.

Lemma from_option_Some {A} (o : option A) (w w' : World G E) x :
  from_option mret raise o w = Some (x, w') <-> o = Some x /\ w' = w.
Proof.
  destruct o as [y|]; simpl.
  - rewrite ret_Some. split; [intros [-> ->]|intros [[= ->] ->]]; done.
  - split; [done|intros [[=] _]].
Qed.

Lemma fdiv_Some (x y : Q) (w w' : World G E) q :
  fdiv x y w = Some (q, w') <-> ~ (y == 0)%Q /\ q = (x / y)%Q /\ w' = w.
Proof.
  unfold fdiv. destruct (Qeq_bool y 0) eqn:Hy.
  - apply Qeq_bool_iff in Hy. split; [done|intros [Hn _]; by destruct Hn].
  - apply Qeq_bool_neq in Hy. rewrite ret_Some.
    split; [intros [-> ->]|intros (_ & -> & ->)]; done.
Qed.

Lemma fdiv_total (x y : Q) (w : World G E) : ~ (y == 0)%Q -> is_Some (fdiv x y w).
Proof. intros Hy. eexists (_, _). by apply fdiv_Some. Qed.

Lemma mapM_fdiv (t : Q) (raw : list Q) (w w' : World G E) pcts :
  mapM (fun p => fdiv p t) raw w = Some (pcts, w') ->
  pcts = (fun r => r / t)%Q <$> raw.
Proof.
  intros Hm%mapM_Some. symmetry. apply list_eq_Forall2, Forall2_fmap_l.
  eapply Forall2_impl; [exact Hm|]. simpl.
  by intros r p (w1 & w2 & (_ & -> & _)%fdiv_Some).
Qed.

Lemma random_random_Some (w w' : World G E) r :
  random_random w = Some (r, w') <->
  r = (prng_random (w_rng w)).1 /\ w' = mkWorld (prng_random (w_rng w)).2 (w_os w).
Proof.
  unfold random_random, lift_rng. destruct (prng_random (w_rng w)) as [r0 g].
  simpl. split; [intros [= <- <-]|intros [-> ->]]; done.
Qed.

Lemma random_uniform_Some (a b : Q) (w w' : World G E) p :
  random_uniform a b w = Some (p, w') <->
  p = (a + (b - a) * (prng_random (w_rng w)).1)%Q /\
  w' = mkWorld (prng_random (w_rng w)).2 (w_os w).
Proof.
  unfold random_uniform. rewrite bind_Some. split.
  - intros (r & w1 & [-> ->]%random_random_Some & [<- <-]%ret_Some). done.
  - intros [-> ->]. eexists _, _. split; [by apply random_random_Some|done].
Qed.

Lemma random_uniform_total (a b : Q) (w : World G E) : is_Some (random_uniform a b w).
Proof. eexists (_, _). by apply random_uniform_Some. Qed.

Lemma random_uniform_range `{!PRNGLaws G} (a b : Q) (w w' : World G E) p :
  (a <= b)%Q -> random_uniform a b w = Some (p, w') -> (a <= p /\ p <= b)%Q.
Proof.
  intros Hab [-> _]%random_uniform_Some.
  destruct (prng_random_range (w_rng w)) as [H0r Hr1].
  split; nra.
Qed.

Lemma random_randint_range `{!PRNGLaws G} (a b : Z) (w w' : World G E) n :
  random_randint a b w = Some (n, w') -> a <= n <= b.
Proof.
  unfold random_randint. destruct (Z.ltb_spec b a) as [|Hab]; [done|].
  intros (i & w1 & Hi & [<- _]%ret_Some)%bind_Some.
  unfold randbelow, lift_rng in Hi.
  pose proof (prng_randbelow_range (Z.to_nat (b - a + 1)) (w_rng w)) as Hlt.
  destruct (prng_randbelow _ _) as [i' g]. injection Hi as -> _. simpl in Hlt. lia.
Qed.

Lemma random_choice_Some {A} (seq : list A) (w w' : World G E) x :
  random_choice seq w = Some (x, w') -> x ∈ seq.
Proof.
  unfold random_choice. destruct seq as [|y seq]; [done|].
  intros (i & w1 & _ & [Hx _]%index_Some)%bind_Some.
  by eapply list_elem_of_lookup_2.
Qed.

Lemma random_choices1_Some {A} (population : list A) weights (w w' : World G E) x :
  random_choices1 population weights w = Some (x, w') -> x ∈ population.
Proof.
  unfold random_choices1. destruct (negb _); [done|].
  destruct (Qle_bool _ 0); [done|].
  intros (r & w1 & _ & [Hx _]%index_Some)%bind_Some.
  by eapply list_elem_of_lookup_2.
Qed.

Lemma getitem_total {A} (d : gmap string A) k (w : World G E) :
  is_Some (d !! k) -> is_Some (getitem d k w).
Proof. intros [x Hx]. exists (x, w). by apply getitem_Some. Qed.

Lemma random_random_total (w : World G E) : is_Some (random_random w).
Proof. eexists (_, _). by apply random_random_Some. Qed.

Lemma randbelow_total (n : nat) (w : World G E) : is_Some (randbelow n w).
Proof.
  unfold randbelow, lift_rng. destruct (prng_randbelow n (w_rng w)). by eexists.
Qed.

Lemma random_randint_total (a b : Z) (w : World G E) :
  a <= b -> is_Some (random_randint a b w).
Proof.
  intros Hab. unfold random_randint. destruct (Z.ltb_spec b a) as [|_]; [lia|].
  apply bind_total; [apply randbelow_total|]. intros. apply ret_total.
Qed.

Lemma random_choice_total `{!PRNGLaws G} {A} (seq : list A) (w : World G E) :
  seq <> [] -> is_Some (random_choice seq w).
Proof.
  intros Hne. unfold random_choice. destruct seq as [|x seq]; [done|].
  apply bind_total; [apply randbelow_total|].
  intros i w1 Hi. unfold randbelow, lift_rng in Hi.
  pose proof (prng_randbelow_range (length (x :: seq)) (w_rng w)) as Hlt.
  destruct (prng_randbelow _ _) as [i' g]. injection Hi as -> _.
  destruct (lookup_lt_is_Some_2 (x :: seq) i) as [y Hy]; [simpl in *; lia|].
  exists (y, w1). by apply index_Some.
Qed.

End HostFacts.

(** ** The schedule of values *)

Lemma SOV_TEMPLATE_ok : Forall (fun item => template_ok item = true) SOV_TEMPLATE.
Proof. unfold SOV_TEMPLATE. repeat constructor. Qed.


Section SovFacts.
Context {G E : Type} `{PRNG G} `{OsEntropy E}.

Lemma adjust_last_Some (delta : Z) (l l' : list SovLine) (w w' : World G E) :
  adjust_last delta l w = Some (l', w') ->
  w' = w /\ exists l0 x, l = l0 ++ [x] /\
    l' = l0 ++ [set_scheduled_value (scheduled_value x + delta) x].
Proof.
  unfold adjust_last. destruct l as [|x0 l0 _] using rev_ind; [done|].
  destruct (l0 ++ [x0]) eqn:E2; [by destruct l0|]. rewrite <- E2. clear E2.
  intros Hm. apply ret_Some in Hm as [<- <-]. split; [done|].
  exists l0, x0. split; [done|].
  exact (alter_last (fun l => set_scheduled_value (scheduled_value l + delta) l) l0 x0).
Qed.

Lemma adjust_last_sum (delta : Z) (l l' : list SovLine) (w w' : World G E) :
  adjust_last delta l w = Some (l', w') ->
  Zsum (scheduled_value <$> l') = Zsum (scheduled_value <$> l) + delta.
Proof.
  intros (_ & l0 & x & -> & ->)%adjust_last_Some.
  rewrite !fmap_app, !Zsum_app. simpl. rewrite !Zsum_cons, !Zsum_nil. lia.
Qed.

Lemma sov_line_Some project cv pcts i item (w w' : World G E) line :
  sov_line project cv pcts i item w = Some (line, w') ->
  exists p, pcts !! i = Some p /\
    scheduled_value line = py_round (inject_Z cv * p / 100) * 100 /\
    sov_line_id line = prj_id project +:+ "-SOV-" +:+ tpl_code item /\
    int_of_str (tpl_code item) = Some (line_number line).
Proof.
  unfold sov_line. intros Hm.
  apply bind_Some in Hm as (p & w1 & [Hp ->]%index_Some & Hm).
  apply bind_Some in Hm as (n & w2 & [Hn ->]%from_option_Some & Hm).
  apply bind_Some in Hm as (lp & w3 & _ & Hm).
  apply bind_Some in Hm as (mp & w4 & _ & Hm).
  apply ret_Some in Hm as [<- _]. by exists p.
Qed.

Lemma sov_line_total project cv pcts i item (w : World G E) :
  is_Some (pcts !! i) -> is_Some (int_of_str (tpl_code item)) ->
  is_Some (sov_line project cv pcts i item w).
Proof.
  intros [p Hp] [n Hn]. unfold sov_line.
  apply bind_total; [by eexists (_, _); apply index_Some|intros ? w1 _].
  apply bind_total; [by eexists (_, _); apply from_option_Some|intros ? w2 _].
  apply bind_total; [destruct (negb _); apply random_uniform_total|intros ? w3 _].
  apply bind_total; [destruct (negb _); apply random_uniform_total|intros ? w4 _].
  apply ret_total.
Qed.


Lemma sov_lines_values project cv pcts (tpl : list SovTemplateItem) (w w' : World G E)
    lines :
  mapM (fun '(i, item) => sov_line project cv pcts i item) (imap pair tpl) w
    = Some (lines, w') ->
  length pcts = length tpl ->
  scheduled_value <$> lines
    = (fun p => py_round (inject_Z cv * p / 100) * 100) <$> pcts.
Proof.
  intros Hrel%mapM_Some Hlen. apply list_eq. intros i. rewrite !list_lookup_fmap.
  destruct (tpl !! i) as [item|] eqn:Hitem.
  - assert (Himap : imap pair tpl !! i = Some (i, item))
      by (by rewrite list_lookup_imap, Hitem).
    destruct (Forall2_lookup_l _ _ _ _ _ Hrel Himap) as (line & -> & w1 & w2 & Hrun).
    apply sov_line_Some in Hrun as (p & -> & Hv & _). simpl. by rewrite Hv.
  - apply Forall2_length in Hrel. rewrite length_imap in Hrel.
    apply lookup_ge_None in Hitem. rewrite !lookup_ge_None_2; [done|lia..].
Qed.

Lemma raw_pcts_range `{!PRNGLaws G} tpl (w w' : World G E) raw :
  Forall (fun item => template_ok item = true) tpl ->
  mapM (fun item => random_uniform (tpl_pct_range item).1 (tpl_pct_range item).2)
       tpl w = Some (raw, w') ->
  Forall2 (fun item r => ((tpl_pct_range item).1 <= r /\ r <= (tpl_pct_range item).2)%Q)
          tpl raw.
Proof.
  intros Hok Hm%mapM_Some.
  induction Hm as [|item p tpl raw (w1 & w2 & Hp) _ IH]; [constructor|].
  apply Forall_cons in Hok as [Hi Hok].
  constructor; [|by apply IH].
  unfold template_ok in Hi.
  rewrite !andb_true_iff, Qltb_lt, Qle_bool_iff in Hi.
  destruct Hi as [[Hlo Hle] _].
  by apply random_uniform_range in Hp.
Qed.

(** Whatever the host, the lines [generate_sov] returns sum to the contract
    value: the last line takes what the rounding left. *)
Lemma generate_sov_sum (project : Project) (cv : Z) (w w' : World G E) lines :
  generate_sov project cv w = Some (lines, w') ->
  Zsum (scheduled_value <$> lines) = cv.
Proof.
  unfold generate_sov. intros Hm.
  apply bind_Some in Hm as (raw & w1 & _ & Hm).
  apply bind_Some in Hm as (pcts & w2 & _ & Hm).
  apply bind_Some in Hm as (lines0 & w3 & _ & Hm).
  apply adjust_last_sum in Hm. lia.
Qed.

(** With a host that keeps the laws of [random], [generate_sov] raises
    nothing. *)
Lemma generate_sov_total `{!PRNGLaws G} (project : Project) (cv : Z) (w : World G E) :
  is_Some (generate_sov project cv w).
Proof.
  unfold generate_sov.
  apply bind_total; [apply mapM_total; intros; apply random_uniform_total|].
  intros raw w1 Hraw.
  pose proof (raw_pcts_range _ _ _ _ SOV_TEMPLATE_ok Hraw) as Hrange.
  assert (Htot : (0 < Qsum raw)%Q).
  { apply Qsum_pos.
    - pose proof SOV_TEMPLATE_ok as Hok. revert Hok. clear -Hrange.
      induction Hrange as [|item r tpl raw [Hlo _] _ IH]; [constructor|].
      intros [Hi Hok]%Forall_cons. constructor; [|by apply IH].
      unfold template_ok in Hi. rewrite !andb_true_iff, Qltb_lt in Hi.
      destruct Hi as [[Hpos _] _]. lra.
    - intros ->. by apply Forall2_length in Hrange. }
  apply bind_total; [apply mapM_total; intros; apply fdiv_total; lra|].
  intros pcts w2 Hpcts. apply mapM_fdiv in Hpcts as ->.
  apply bind_total.
  - apply mapM_total. intros [i item] w0 Hin.
    apply elem_of_lookup_imap in Hin as (i' & item' & [= <- <-] & Hi).
    apply sov_line_total.
    + apply lookup_lt_is_Some. rewrite length_fmap, <- (Forall2_length _ _ _ Hrange).
      by eapply lookup_lt_Some.
    + pose proof (Forall_lookup_1 _ _ _ _ SOV_TEMPLATE_ok Hi) as Hok.
      unfold template_ok in Hok.
      rewrite !andb_true_iff, bool_decide_eq_true in Hok. apply Hok.
  - intros lines0 w3 Hlines%mapM_length. rewrite length_imap in Hlines.
    unfold adjust_last. destruct lines0; [done|apply ret_total].
Qed.

(** C1.  For every project and contract value, [generate_sov] returns lines
    whose [scheduled_value] sum to the contract value exactly: each of the
    fifteen normalized percentages [pcts] (they sum to 1) gives a line rounded
    to the nearest multiple of 100, and the last line is then raised by the
    whole residual, the contract value minus the sum of the rounded lines. *)
Theorem generate_sov_conserves `{!PRNGLaws G} (project : Project) (cv : Z)
    (w : World G E) :
  exists lines w' pcts,
    generate_sov project cv w = Some (lines, w') /\
    Zsum (scheduled_value <$> lines) = cv /\
    length pcts = length SOV_TEMPLATE /\ (Qsum pcts == 1)%Q /\
    let rounded := (fun p => py_round (inject_Z cv * p / 100) * 100) <$> pcts in
    Forall (fun v => (100 | v)) rounded /\
    scheduled_value <$> lines =
      alter (fun v => v + (cv - Zsum rounded)) (length rounded - 1)%nat rounded.
Proof.
  destruct (generate_sov_total project cv w) as [[lines w'] Hrun].
  pose proof (generate_sov_sum _ _ _ _ _ Hrun) as Hsum.
  pose proof Hrun as Hm. unfold generate_sov in Hm.
  apply bind_Some in Hm as (raw & w1 & Hraw & Hm).
  apply bind_Some in Hm as (pcts & w2 & Hpcts & Hm).
  apply bind_Some in Hm as (lines0 & w3 & Hlines & Hm).
  pose proof (Forall2_length _ _ _ (raw_pcts_range _ _ _ _ SOV_TEMPLATE_ok Hraw)) as Hlen.
  assert (Hnz : ~ (Qsum raw == 0)%Q).
  { destruct raw as [|r raw]; [done|].
    apply mapM_Some, Forall2_cons_inv_l in Hpcts as (p & ps & (w4 & w5 & Hp) & _).
    by apply fdiv_Some in Hp as [? _]. }
  apply mapM_fdiv in Hpcts as ->.
  apply sov_lines_values in Hlines; [|by rewrite length_fmap].
  apply adjust_last_Some in Hm as (_ & l0 & x & -> & ->).
  exists (l0 ++ [set_scheduled_value
                   (scheduled_value x + (cv - Zsum (scheduled_value <$> l0 ++ [x]))) x]),
         w', ((fun r => r / Qsum raw)%Q <$> raw).
  split; [exact Hrun|]. split; [exact Hsum|].
  split; [by rewrite length_fmap|].
  split; [rewrite Qsum_div; by field|]. cbv zeta.
  split.
  - apply Forall_fmap, Forall_true. intros p. simpl. apply Z.divide_factor_r.
  - rewrite <- Hlines. rewrite !fmap_app. simpl.
    by rewrite (alter_last (fun v => v + _)).
Qed.


End SovFacts.

Lemma generate_sov_conserves_witness :
  PRNGLaws Z /\
  exists lines w' pcts,
    generate_sov example_project 1000000 (boot 42 0) = Some (lines, w') /\
    Zsum (scheduled_value <$> lines) = 1000000 /\
    length pcts = length SOV_TEMPLATE /\ (Qsum pcts == 1)%Q /\
    let rounded := (fun p => py_round (inject_Z 1000000 * p / 100) * 100) <$> pcts in
    Forall (fun v => (100 | v)) rounded /\
    scheduled_value <$> lines =
      alter (fun v => v + (1000000 - Zsum rounded)) (length rounded - 1)%nat rounded.
Proof.
  split; [exact lcg_laws|].
  exact (generate_sov_conserves example_project 1000000 (boot 42 0)).
Defined.

(** *** No negative line *)

(** What the last line is left with once the fourteen lines before it are
    rounded: nothing negative, from a contract value of 91,000 on. *)
Lemma rounded_lines_nonneg (cv : Z) (raw : list Q) :
  91000 <= cv ->
  Forall2 (fun item r => ((tpl_pct_range item).1 <= r /\ r <= (tpl_pct_range item).2)%Q)
          SOV_TEMPLATE raw ->
  let pcts := (fun r => r / Qsum raw)%Q <$> raw in
  let rounded := (fun p => py_round (inject_Z cv * p / 100) * 100) <$> pcts in
  Forall (fun v => 0 <= v)
         (alter (fun v => v + (cv - Zsum rounded)) (length rounded - 1)%nat rounded).
Proof.
  intros Hcv Hrange. cbv zeta.
  assert (Hcv' : (91000 <= inject_Z cv)%Q).
  { change 91000%Q with (inject_Z 91000). by rewrite <- Zle_Qle. }
  (* the total of the draws *)
  assert (Hhi : (Qsum raw <= 1.30)%Q).
  { assert (1.30 == Qsum ((fun item => (tpl_pct_range item).2) <$> SOV_TEMPLATE))%Q
      as -> by reflexivity.
    apply Qsum_le. apply Forall2_fmap_r, Forall2_flip.
    eapply Forall2_impl; [exact Hrange|]. simpl. by intros item r [_ ?]. }
  assert (Hpos : Forall (fun r => (0 < r)%Q) raw).
  { clear -Hrange. pose proof SOV_TEMPLATE_ok as Hok. revert Hok.
    induction Hrange as [|item r tpl raw [Hlo _] _ IH]; [constructor|].
    intros [Hi Hok]%Forall_cons. constructor; [|by apply IH].
    unfold template_ok in Hi. rewrite !andb_true_iff, Qltb_lt in Hi.
    destruct Hi as [[Hpos _] _]. lra. }
  (* the last draw apart *)
  change SOV_TEMPLATE with (take 14 SOV_TEMPLATE ++ drop 14 SOV_TEMPLATE) in Hrange.
  apply Forall2_app_inv_l in Hrange as (raw0 & raw1 & Hr0 & Hr1 & ->).
  apply Forall2_length in Hr0. simpl in Hr0.
  simpl in Hr1. apply Forall2_cons_inv_l in Hr1 as (r_last & k' & [Hlast _] & Hnil & ->).
  apply Forall2_nil_inv_l in Hnil as ->. simpl in Hlast.
  set (t := Qsum (raw0 ++ [r_last])) in *.
  assert (Ht : (t == Qsum raw0 + r_last)%Q).
  { subst t. rewrite Qsum_app, Qsum_cons, Qsum_nil. lra. }
  apply Forall_app in Hpos as [Hpos0 _].
  assert (Hq0 : (0 <= Qsum raw0)%Q).
  { apply Qsum_nonneg. eapply Forall_impl; [exact Hpos0|]. simpl. intros. lra. }
  assert (Htpos : (0 < t)%Q) by lra.
  rewrite !fmap_app. simpl.
  set (rounded0 := (fun p => py_round (inject_Z cv * p / 100) * 100)
                     <$> ((fun r => (r / t)%Q) <$> raw0)).
  rewrite (alter_last (fun v => v + _) rounded0).
  apply Forall_app. split.
  - subst rounded0. apply Forall_fmap, Forall_fmap.
    eapply Forall_impl; [exact Hpos0|]. simpl. intros r Hr.
    enough (0 <= py_round (inject_Z cv * (r / t) / 100)) by lia.
    apply py_round_nonneg.
    assert (0 <= r / t)%Q by (apply Qle_shift_div_l; lra).
    assert (0 <= inject_Z cv * (r / t))%Q by (apply Qmult_le_0_compat; lra).
    apply Qle_shift_div_l; lra.
  - constructor; [|constructor].
    rewrite Zsum_app, Zsum_cons, Zsum_nil.
    enough (Zsum rounded0 <= cv) by lia.
    rewrite Zle_Qle.
    pose proof (Zsum_rounded_le cv ((fun r => (r / t)%Q) <$> raw0)) as Hle.
    fold rounded0 in Hle. rewrite !length_fmap, <- Hr0 in Hle.
    rewrite Qsum_div in Hle. change (inject_Z (Z.of_nat 14)) with 14%Q in Hle.
    eapply Qle_trans; [exact Hle|].
    assert (Hshare : (700 <= inject_Z cv * (r_last / t))%Q).
    { assert (700 * t <= inject_Z cv * r_last)%Q by nra.
      assert (inject_Z cv * (r_last / t) == inject_Z cv * r_last / t)%Q as ->
        by (unfold Qdiv; ring).
      apply Qle_shift_div_l; [done|lra]. }
    assert (Hsplit : (inject_Z cv * (Qsum raw0 / t)
                      == inject_Z cv - inject_Z cv * (r_last / t))%Q).
    { assert (Qsum raw0 == t - r_last)%Q as -> by lra. field. lra. }
    rewrite Hsplit. lra.
Qed.

Section SovWellFormed.
Context {G E : Type} `{PRNG G} `{OsEntropy E}.

(** From a contract value of 91,000 on, no line of a generated schedule of
    values is negative. *)
Lemma generate_sov_nonneg `{!PRNGLaws G} project cv (w w' : World G E) lines :
  91000 <= cv ->
  generate_sov project cv w = Some (lines, w') ->
  Forall (fun line => 0 <= scheduled_value line) lines.
Proof.
  intros Hcv Hm. unfold generate_sov in Hm.
  apply bind_Some in Hm as (raw & w1 & Hraw & Hm).
  apply bind_Some in Hm as (pcts & w2 & Hpcts & Hm).
  apply bind_Some in Hm as (lines0 & w3 & Hlines & Hm).
  pose proof (raw_pcts_range _ _ _ _ SOV_TEMPLATE_ok Hraw) as Hrange.
  apply mapM_fdiv in Hpcts as ->.
  apply sov_lines_values in Hlines;
    [|by rewrite length_fmap, <- (Forall2_length _ _ _ Hrange)].
  apply adjust_last_Some in Hm as (_ & l0 & x & -> & ->).
  pose proof (rounded_lines_nonneg cv raw Hcv Hrange) as Hnn. cbv zeta in Hnn.
  rewrite <- Hlines in Hnn.
  rewrite fmap_app in Hnn. simpl in Hnn.
  rewrite (alter_last (fun v => v + _) (scheduled_value <$> l0)) in Hnn.
  rewrite Forall_forall in Hnn. apply Forall_forall. intros line Hline.
  apply Hnn. apply elem_of_app in Hline as [Hin| ->%list_elem_of_singleton].
  - apply elem_of_app. left. by apply list_elem_of_fmap_2.
  - apply elem_of_app. right. simpl. rewrite fmap_app. by left.
Qed.



End SovWellFormed.

(** ** The progress billing engine *)

Lemma sum_values_empty : sum_values ∅ = 0.
Proof. unfold sum_values. apply map_fold_empty. Qed.

Lemma sum_values_insert_None (m : gmap string Z) k v :
  m !! k = None -> sum_values (<[k := v]> m) = v + sum_values m.
Proof.
  intros Hk. unfold sum_values. rewrite map_fold_insert_L; [done| |done].
  intros. lia.
Qed.

Lemma sum_values_delete (m : gmap string Z) k v :
  m !! k = Some v -> sum_values m = v + sum_values (delete k m).
Proof.
  intros Hk. rewrite <- (insert_delete_id m k v Hk) at 1.
  apply sum_values_insert_None, lookup_delete_eq.
Qed.

Lemma sum_values_insert (m : gmap string Z) k v v' :
  m !! k = Some v -> sum_values (<[k := v']> m) = sum_values m - v + v'.
Proof.
  intros Hk. rewrite (sum_values_delete m k v Hk).
  rewrite <- insert_delete_eq.
  rewrite sum_values_insert_None by apply lookup_delete_eq. lia.
Qed.

Lemma map_le_refl m : map_le m m.
Proof. intros k. destruct (m !! k); [lia|done]. Qed.

Lemma map_le_trans m1 m2 m3 : map_le m1 m2 -> map_le m2 m3 -> map_le m1 m3.
Proof.
  intros H12 H23 k. specialize (H12 k). specialize (H23 k).
  destruct (m1 !! k), (m2 !! k), (m3 !! k); try done. lia.
Qed.

Lemma map_le_insert_r m k v v' :
  m !! k = Some v -> v <= v' -> map_le m (<[k := v']> m).
Proof.
  intros Hk Hv j. destruct (decide (j = k)) as [->|Hne].
  - by rewrite Hk, lookup_insert_eq.
  - rewrite lookup_insert_ne by done. destruct (m !! j); [lia|done].
Qed.

Lemma map_le_insert_l m1 m2 k v s :
  map_le m1 m2 -> m2 !! k = Some s -> v <= s -> map_le (<[k := v]> m1) m2.
Proof.
  intros Hle Hs Hv j. destruct (decide (j = k)) as [->|Hne].
  - by rewrite Hs, lookup_insert_eq.
  - rewrite lookup_insert_ne by done. apply Hle.
Qed.

Lemma sum_values_mono m1 m2 : map_le m1 m2 -> sum_values m1 <= sum_values m2.
Proof.
  revert m2. induction m1 as [|k v m1 Hk IH] using map_ind; intros m2 Hle.
  - assert (m2 = ∅) as ->; [|done].
    apply map_empty. intros j. specialize (Hle j). rewrite lookup_empty in Hle.
    by destruct (m2 !! j).
  - pose proof (Hle k) as Hkk. rewrite lookup_insert_eq in Hkk.
    destruct (m2 !! k) as [s|] eqn:Hs; [|done].
    rewrite (sum_values_delete m2 k s Hs), sum_values_insert_None by done.
    enough (sum_values m1 <= sum_values (delete k m2)) by lia.
    apply IH. intros j. specialize (Hle j). destruct (decide (j = k)) as [->|Hne].
    + by rewrite Hk, lookup_delete_eq.
    + by rewrite lookup_insert_ne, lookup_delete_ne in * by done.
Qed.

Lemma progress_mult_of_zero (q : Q) : (q == 0)%Q -> (progress_mult_of q == 0)%Q.
Proof.
  intros Hq. unfold progress_mult_of.
  assert (Qltb q 0.15 = true) as -> by (apply Qltb_lt; lra).
  apply Qmin_zero; lra.
Qed.

Lemma target_pct_of_zero (n : Z) (pm : Q) : (pm == 0)%Q -> (target_pct_of n pm == 0)%Q.
Proof.
  intros Hpm. unfold target_pct_of. apply Qmin_zero; [|lra].
  repeat case_match.
  - apply Qmin_zero; lra.
  - done.
  - rewrite Qmax_neg by lra. lra.
  - rewrite Qmax_neg by lra. lra.
Qed.

Lemma dict_of_lines_snoc {A} (f : SovLine -> A) l x :
  dict_of_lines f (l ++ [x]) = <[sov_line_id x := f x]> (dict_of_lines f l).
Proof. unfold dict_of_lines. by rewrite foldl_app. Qed.

Lemma dict_of_lines_lookup {A} (f : SovLine -> A) l k v :
  dict_of_lines f l !! k = Some v ->
  exists line, line ∈ l /\ sov_line_id line = k /\ v = f line.
Proof.
  induction l as [|x l IH] using rev_ind; [done|].
  rewrite dict_of_lines_snoc. destruct (decide (sov_line_id x = k)) as [<-|Hne].
  - rewrite lookup_insert_eq. intros [= <-]. exists x. set_solver.
  - rewrite lookup_insert_ne by done. intros (line & ? & ? & ?)%IH.
    exists line. set_solver.
Qed.

Lemma dict_of_lines_None {A} (f : SovLine -> A) l k :
  dict_of_lines f l !! k = None <-> k ∉ sov_line_id <$> l.
Proof.
  induction l as [|x l IH] using rev_ind; [set_solver|].
  rewrite dict_of_lines_snoc, fmap_app. simpl.
  destruct (decide (sov_line_id x = k)) as [<-|Hne].
  - rewrite lookup_insert_eq. set_solver.
  - rewrite lookup_insert_ne by done. set_solver.
Qed.

Lemma dict_of_lines_NoDup {A} (f : SovLine -> A) l line :
  NoDup (sov_line_id <$> l) -> line ∈ l ->
  dict_of_lines f l !! sov_line_id line = Some (f line).
Proof.
  induction l as [|x l IH] using rev_ind; [set_solver|].
  rewrite fmap_app, dict_of_lines_snoc. simpl.
  intros (Hnd & Hx & _)%NoDup_app [Hin| ->%list_elem_of_singleton]%elem_of_app.
  - rewrite lookup_insert_ne; [by apply IH|].
    intros Heq. apply (Hx (sov_line_id line)); [|set_solver].
    apply list_elem_of_fmap. by exists line.
  - by rewrite lookup_insert_eq.
Qed.

Lemma sum_values_dict l :
  NoDup (sov_line_id <$> l) ->
  sum_values (dict_of_lines scheduled_value l) = Zsum (scheduled_value <$> l).
Proof.
  induction l as [|x l IH] using rev_ind; [intros; apply sum_values_empty|].
  rewrite fmap_app, dict_of_lines_snoc. simpl.
  intros (Hnd & Hx & _)%NoDup_app.
  rewrite sum_values_insert_None.
  - rewrite fmap_app, Zsum_app, IH by done. simpl. rewrite Zsum_cons, Zsum_nil. lia.
  - apply dict_of_lines_None. intros Hin. apply (Hx _ Hin). set_solver.
Qed.

Lemma all_zero_init l : all_zero (dict_of_lines (fun _ => 0) l).
Proof. intros k v (line & _ & _ & ->)%dict_of_lines_lookup. done. Qed.

Lemma map_le_init l :
  Forall (fun line => 0 <= scheduled_value line) l ->
  map_le (dict_of_lines (fun _ => 0) l) (dict_of_lines scheduled_value l).
Proof.
  intros Hnn k.
  destruct (dict_of_lines (fun _ => 0) l !! k) as [z|] eqn:Hz.
  - destruct (dict_of_lines scheduled_value l !! k) as [v|] eqn:Hv.
    + apply dict_of_lines_lookup in Hz as (_ & _ & _ & ->).
      apply dict_of_lines_lookup in Hv as (line & Hin & _ & ->).
      by eapply Forall_forall in Hnn.
    + apply dict_of_lines_None in Hv. apply (dict_of_lines_None (fun _ => 0)) in Hv.
      congruence.
  - apply dict_of_lines_None in Hz. apply (dict_of_lines_None scheduled_value) in Hz.
    by rewrite Hz.
Qed.

Lemma dict_of_lines_lookup_fmap {A B} (g : A -> B) (f : SovLine -> A) l k :
  dict_of_lines (fun line => g (f line)) l !! k = g <$> dict_of_lines f l !! k.
Proof.
  induction l as [|x l IH] using rev_ind; [done|].
  rewrite !dict_of_lines_snoc. destruct (decide (sov_line_id x = k)) as [<-|Hne].
  - by rewrite !lookup_insert_eq.
  - by rewrite !lookup_insert_ne.
Qed.

Lemma map_le_init_nonneg (f : SovLine -> Z) l :
  (forall line, 0 <= f line) ->
  map_le (dict_of_lines (fun _ => 0) l) (dict_of_lines f l).
Proof.
  intros Hnn k.
  rewrite (dict_of_lines_lookup_fmap (fun _ => 0) f l k).
  destruct (dict_of_lines f l !! k) as [v|] eqn:Hv; simpl; [|done].
  by apply dict_of_lines_lookup in Hv as (line & _ & _ & ->).
Qed.

(** Whatever the ids, a dictionary of values that are not negative sums to at
    most the sum over the lines: a repeated id keeps its last value only. *)
Lemma sum_values_dict_le (f : SovLine -> Z) l :
  (forall line, 0 <= f line) -> sum_values (dict_of_lines f l) <= Zsum (f <$> l).
Proof.
  intros Hnn. induction l as [|x l IH] using rev_ind.
  - change (dict_of_lines f []) with (∅ : gmap string Z).
    by rewrite sum_values_empty.
  - rewrite fmap_app, Zsum_app, dict_of_lines_snoc. simpl.
    rewrite Zsum_cons, Zsum_nil.
    destruct (dict_of_lines f l !! sov_line_id x) as [v|] eqn:Hv.
    + rewrite (sum_values_insert _ _ v) by done.
      apply dict_of_lines_lookup in Hv as (line & _ & _ & ->).
      specialize (Hnn line). lia.
    + rewrite sum_values_insert_None by done. lia.
Qed.

Section BillingFacts.
Context {G E : Type} `{PRNG G} `{OsEntropy E}.

Lemma bill_line_Some svals nums pm sb items pt line (w w' : World G E) sb' items' pt' :
  bill_line svals nums pm (sb, items, pt) line w = Some ((sb', items', pt'), w') ->
  exists sv billed,
    svals !! sov_line_id line = Some sv /\ sb !! sov_line_id line = Some billed /\
    ((sb' = sb /\ items' = items /\ pt' = pt) \/
     exists pb li,
       0 < pb /\ billed + pb <= sv /\
       ((pm == 0)%Q -> billed = 0 -> False) /\
       sb' = <[sov_line_id line := billed + pb]> sb /\
       pt' = pt + pb /\ items' = items ++ [li] /\
       li_sov_line_id li = sov_line_id line /\
       li_description li = sl_description line /\
       li_scheduled_value li = sv /\ total_billed li = billed + pb /\
       this_period li = pb /\ previous_billed li = billed /\
       balance_to_finish li = sv - (billed + pb)).
Proof.
  unfold bill_line. intros Hm.
  apply bind_Some in Hm as (num & w1 & [Hnum ->]%getitem_Some & Hm).
  apply bind_Some in Hm as (sv & w2 & [Hsv ->]%getitem_Some & Hm).
  apply bind_Some in Hm as (billed & w3 & [Hb ->]%getitem_Some & Hm).
  apply bind_Some in Hm as (u & w4 & Hu & Hm).
  exists sv, billed. split; [done|]. split; [done|].
  set (raw := py_round (Qmax (inject_Z sv * target_pct_of num pm - inject_Z billed) 0
                        * u / 100) * 100) in *.
  set (pb := if billed + raw >? sv then sv - billed else raw) in *.
  assert (Hcap : billed + pb <= sv).
  { subst pb. destruct (Z.gtb_spec (billed + raw) sv); lia. }
  destruct (Z.gtb_spec pb 0) as [Hpos|Hneg].
  - right.
    apply bind_Some in Hm as (b' & w5 & [Hb' ->]%getitem_Some & Hm).
    rewrite lookup_insert_eq in Hb'. injection Hb' as <-.
    apply bind_Some in Hm as (ratio & w6 & (_ & -> & ->)%fdiv_Some & Hm).
    apply ret_Some in Hm as [[= <- <- <-] _].
    eexists pb, _. repeat split; simpl; try done; try lia.
    intros Hpm ->. 
    assert (raw = 0) as Hraw.
    { subst raw. rewrite py_round_zero; [done|].
      pose proof (target_pct_of_zero num pm Hpm) as Ht.
      rewrite Qmax_zero; [unfold Qdiv; ring|]. rewrite Ht.
      change (inject_Z 0) with 0%Q. lra. }
    subst pb. rewrite Hraw in Hpos.
    destruct (Z.gtb_spec (0 + 0) sv); lia.
  - left. apply ret_Some in Hm as [[= <- <- <-] _]. done.
Qed.

Lemma bill_lines_Some svals nums pm lines sb items pt (w w' : World G E)
    sb' items' pt' :
  foldM (bill_line svals nums pm) lines (sb, items, pt) w
    = Some ((sb', items', pt'), w') ->
  map_le sb sb' /\
  (map_le sb svals -> map_le sb' svals) /\
  (Forall (item_ok svals) items -> Forall (item_ok svals) items') /\
  ((pm == 0)%Q -> all_zero sb -> sb' = sb /\ items' = items /\ pt' = pt) /\
  pt' - pt = sum_values sb' - sum_values sb.
Proof.
  intros Hm.
  pose proof (foldM_invariant
    (fun st : MonthState =>
       map_le sb st.1.1 /\
       (map_le sb svals -> map_le st.1.1 svals) /\
       (Forall (item_ok svals) items -> Forall (item_ok svals) st.1.2) /\
       ((pm == 0)%Q -> all_zero sb -> st.1.1 = sb /\ st.1.2 = items /\ st.2 = pt) /\
       st.2 - pt = sum_values st.1.1 - sum_values sb)
    (bill_line svals nums pm) lines (sb, items, pt) w (sb', items', pt') w') as HI.
  simpl in HI. apply HI; [| |exact Hm]; clear HI Hm.
  - intros [[sb1 items1] pt1] line w1 [[sb2 items2] pt2] w2 _; simpl.
    intros (Hle & Hbound & Hitems & Hzero & Hsum) Hstep.
    apply bill_line_Some in Hstep
      as (sv & billed & Hsv & Hb & [(-> & -> & ->)|Hstep]); [done|].
    destruct Hstep as (pb & li & Hpb & Hcap & Hnz & -> & -> & -> & Hid & _ & Hlsv
                       & Htot & Hthis & Hprev & _).
    split; [|split; [|split; [|split]]].
    + eapply map_le_trans; [exact Hle|]. eapply map_le_insert_r; [done|lia].
    + intros Hs. eapply map_le_insert_l; [by apply Hbound|done|done].
    + intros Hi. apply Forall_app. split; [by apply Hitems|].
      constructor; [|constructor]. unfold item_ok.
      rewrite Hid, Hlsv, Htot, Hthis, Hprev. done.
    + intros Hpm Hz. destruct (Hzero Hpm Hz) as (-> & _ & _).
      destruct (Hnz Hpm). by eapply Hz.
    + rewrite (sum_values_insert _ _ _ _ Hb). lia.
  - split; [apply map_le_refl|]. repeat split; try done. lia.
Qed.

Lemma bill_month_Some project lines svals nums start sb billing month
    (w w' : World G E) sb' billing' :
  bill_month project lines svals nums start (sb, billing) month w
    = Some ((sb', billing'), w') ->
  prj_duration_months project <> 0 /\
  map_le sb sb' /\
  (map_le sb svals -> map_le sb' svals) /\
  (month = 0 -> all_zero sb -> sb' = sb /\ billing' = billing) /\
  (billing' = billing \/
   exists a, billing' = billing ++ [a] /\
     application_number a = month + 1 /\
     period_end a = start + (30 * month + 25) /\
     0 < period_total a /\
     period_total a = sum_values sb' - sum_values sb /\
     cumulative_billed a = sum_values sb' /\
     retention_held a = (inject_Z (cumulative_billed a) * 0.10)%Q /\
     net_payment_due a = (inject_Z (cumulative_billed a) - retention_held a)%Q /\
     Forall (item_ok svals) (line_items a)).
Proof.
  unfold bill_month. intros Hm.
  apply bind_Some in Hm as (month_pct & w1 & (Hd & -> & ->)%fdiv_Some & Hm).
  apply bind_Some in Hm as ([[sb1 items] pt] & w2 & Hlines & Hm).
  apply bill_lines_Some in Hlines as (Hle & Hbound & Hitems & Hzero & Hsum).
  assert (Hd' : prj_duration_months project <> 0).
  { intros Heq. apply Hd. by rewrite Heq. }
  assert (Hmonth0 : month = 0 -> all_zero sb -> sb1 = sb /\ pt = 0).
  { intros -> Hz. destruct Hzero as (-> & _ & ->); [|done|done].
    apply progress_mult_of_zero. change (inject_Z 0) with 0%Q.
    unfold Qdiv. ring. }
  destruct (Z.gtb_spec pt 0) as [Hpos|Hneg].
  - apply bind_Some in Hm as (status & w3 & _ & Hm).
    apply bind_Some in Hm as (r & w4 & _ & Hm).
    apply bind_Some in Hm as (pay & w5 & _ & Hm).
    apply ret_Some in Hm as [[= <- <-] _].
    split; [done|]. split; [done|]. split; [exact Hbound|].
    split; [intros Hm0 Hz; destruct (Hmonth0 Hm0 Hz); lia|].
    right. eexists. split; [done|]. simpl.
    split; [done|]. split; [done|]. split; [done|]. split; [lia|]. split; [done|].
    split; [done|]. split; [done|]. by apply Hitems.
  - apply ret_Some in Hm as [[= <- <-] _].
    split; [done|]. split; [done|]. split; [exact Hbound|].
    split; [|by left].
    intros Hm0 Hz. by destruct (Hmonth0 Hm0 Hz).
Qed.

Lemma billing_inv_step project lines svals nums start sb0 (i : nat) st
    (w w' : World G E) st' :
  all_zero sb0 ->
  billing_inv svals sb0 start i st ->
  bill_month project lines svals nums start st (Z.of_nat i) w = Some (st', w') ->
  billing_inv svals sb0 start (S i) st'.
Proof.
  intros Hz0 (Hbound & Hstart & Hall & Hsorted & Hlen) Hstep.
  destruct st as [sb billing], st' as [sb' billing']. simpl in *.
  apply bill_month_Some in Hstep as (Hd & Hle & Hb & Hzero & Hcase).
  pose proof (sum_values_mono _ _ Hle) as Hmono.
  assert (Hold : Forall (fun a => app_ok svals start a /\
                   2 <= application_number a <= Z.of_nat (S i) /\
                   cumulative_billed a <= sum_values sb') billing).
  { eapply Forall_impl; [exact Hall|]. simpl. intros a (? & ? & ?).
    split; [done|]. lia. }
  destruct i as [|i].
  - destruct Hstart as [-> ->]; [lia|].
    destruct Hzero as [-> ->]; [done..|].
    unfold billing_inv. simpl. repeat split; try done; try constructor.
  - unfold billing_inv. simpl.
    split; [by intros; apply Hb, Hbound|]. split; [lia|].
    destruct Hcase as [->|(a & -> & Hnum & Hend & Hpos & Hpt & Hcum & Hret & Hnet
                           & Hitems)].
    + split; [done|]. split; [done|]. lia.
    + split; [|split].
      * apply Forall_app. split; [done|]. constructor; [|constructor].
        split; [|lia]. unfold app_ok. rewrite Hnum.
        replace (Z.of_nat (S i) + 1 - 1) with (Z.of_nat (S i)) by lia. done.
      * apply StronglySorted_app_2; [|done|repeat constructor].
        intros x1 x2 Hx1 ->%list_elem_of_singleton.
        eapply Forall_forall in Hall as (_ & Hn1 & Hc1); [|exact Hx1].
        unfold app_lt. lia.
      * rewrite length_app. simpl. lia.
Qed.

Lemma generate_billing_history_inv project lines cv start (w w' : World G E) apps :
  generate_billing_history project lines cv start w = Some (apps, w') ->
  exists sb,
    billing_inv (dict_of_lines scheduled_value lines)
                (dict_of_lines (fun _ => 0) lines) start
                (Z.to_nat (prj_duration_months project + 1)) (sb, apps).
Proof.
  unfold generate_billing_history. intros Hm.
  apply bind_Some in Hm as ([sb billing] & w1 & Hfold & Hm).
  apply ret_Some in Hm as [<- _]. exists sb.
  rewrite <- (length_seqZ 0).
  apply (foldM_invariant_idx
           (billing_inv (dict_of_lines scheduled_value lines)
                        (dict_of_lines (fun _ => 0) lines) start) _ _ _ _ _ _)
    with (3 := Hfold).
  - intros i st month w2 st' w3 [-> _]%lookup_seqZ Hinv Hstep.
    eapply billing_inv_step; [apply all_zero_init|exact Hinv|exact Hstep].
  - unfold billing_inv. simpl. repeat split; try done; constructor.
Qed.
(** *** The bound without a hypothesis on the lines

    No line is billed beyond [max(0, scheduled_value)]: a line of negative
    value is never billed. *)

Lemma bill_line_capped lines nums pm sb items pt line (w w' : World G E)
    sb' items' pt' :
  bill_line (dict_of_lines scheduled_value lines) nums pm (sb, items, pt) line w
    = Some ((sb', items', pt'), w') ->
  map_le sb (dict_of_lines (fun l => Z.max 0 (scheduled_value l)) lines) ->
  map_le sb' (dict_of_lines (fun l => Z.max 0 (scheduled_value l)) lines).
Proof.
  intros (sv & billed & Hsv & Hb & [(-> & _)|Hstep])%bill_line_Some Hle; [done|].
  destruct Hstep as (pb & li & Hpb & Hcap & _ & -> & _).
  eapply map_le_insert_l; [exact Hle| |].
  - rewrite (dict_of_lines_lookup_fmap (Z.max 0) scheduled_value), Hsv. done.
  - lia.
Qed.

Lemma bill_month_capped project lines nums start sb billing month
    (w w' : World G E) sb' billing' :
  bill_month project lines (dict_of_lines scheduled_value lines) nums start
             (sb, billing) month w = Some ((sb', billing'), w') ->
  map_le sb (dict_of_lines (fun l => Z.max 0 (scheduled_value l)) lines) ->
  map_le sb' (dict_of_lines (fun l => Z.max 0 (scheduled_value l)) lines).
Proof.
  unfold bill_month. intros Hm Hle.
  apply bind_Some in Hm as (month_pct & w1 & _ & Hm).
  apply bind_Some in Hm as ([[sb1 items] pt] & w2 & Hlines & Hm).
  assert (Hle1 : map_le sb1 (dict_of_lines (fun l => Z.max 0 (scheduled_value l))
                                           lines)).
  { pose proof (foldM_invariant
      (fun st : MonthState =>
         map_le st.1.1 (dict_of_lines (fun l => Z.max 0 (scheduled_value l)) lines))
      (bill_line (dict_of_lines scheduled_value lines) nums
                 (progress_mult_of month_pct)) lines
      (sb, [], 0) w1 (sb1, items, pt) w2) as HI.
    simpl in HI. apply HI; [|exact Hle|exact Hlines].
    intros [[sb2 items2] pt2] line w3 [[sb3 items3] pt3] w4 _ Hle2 Hstep.
    by eapply bill_line_capped. }
  destruct (pt >? 0).
  - apply bind_Some in Hm as (status & w3 & _ & Hm).
    apply bind_Some in Hm as (r & w4 & _ & Hm).
    apply bind_Some in Hm as (pay & w5 & _ & Hm).
    by apply ret_Some in Hm as [[= <- <-] _].
  - by apply ret_Some in Hm as [[= <- <-] _].
Qed.

(** Whatever the lines, no [cumulative_billed] exceeds the sum of the
    scheduled values that are not negative. *)
Lemma cumulative_billed_capped project lines cv start (w w' : World G E) apps :
  generate_billing_history project lines cv start w = Some (apps, w') ->
  Forall (fun a => cumulative_billed a
                   <= Zsum ((fun l => Z.max 0 (scheduled_value l)) <$> lines)) apps.
Proof.
  unfold generate_billing_history. intros Hm.
  apply bind_Some in Hm as ([sb billing] & w1 & Hfold & Hm).
  apply ret_Some in Hm as [<- _].
  pose proof (foldM_invariant
    (fun st : gmap string Z * list BillingApplication =>
       map_le st.1 (dict_of_lines (fun l => Z.max 0 (scheduled_value l)) lines) /\
       Forall (fun a => cumulative_billed a <= sum_values st.1) st.2)
    (bill_month project lines (dict_of_lines scheduled_value lines)
                (dict_of_lines line_number lines) start)
    (seqZ 0 (prj_duration_months project + 1))
    (dict_of_lines (fun _ => 0) lines, []) w (sb, billing) w1) as HI.
  simpl in HI. destruct HI as [Hle Hall]; [| |exact Hfold|].
  - intros [sb1 b1] month w2 [sb2 b2] w3 _ [Hle Hall] Hstep. simpl in *.
    split; [by eapply bill_month_capped|].
    apply bill_month_Some in Hstep as (_ & Hmono%sum_values_mono & _ & _ & Hcase).
    assert (Hold : Forall (fun a => cumulative_billed a <= sum_values sb2) b1).
    { eapply Forall_impl; [exact Hall|]. simpl. intros a Ha. lia. }
    destruct Hcase as [->|(a & -> & _ & _ & _ & _ & Hcum & _)]; [done|].
    apply Forall_app. split; [done|]. constructor; [lia|constructor].
  - split; [|constructor]. apply map_le_init_nonneg. intros line. lia.
  - eapply Forall_impl; [exact Hall|]. simpl. intros a Ha.
    etrans; [exact Ha|]. etrans; [by apply sum_values_mono|].
    apply sum_values_dict_le. intros line. lia.
Qed.

Lemma Zsum_max_nonneg (lines : list SovLine) :
  Forall (fun line => 0 <= scheduled_value line) lines ->
  Zsum ((fun l => Z.max 0 (scheduled_value l)) <$> lines)
    = Zsum (scheduled_value <$> lines).
Proof.
  induction 1 as [|x l Hx _ IH]; [done|].
  rewrite !fmap_cons, !Zsum_cons, IH. lia.
Qed.

(** *** The billing loop raises nothing *)

Lemma billed_ok_init lines : billed_ok lines (dict_of_lines (fun _ => 0) lines).
Proof.
  intros line Hin.
  destruct (dict_of_lines (fun _ => 0) lines !! sov_line_id line) as [b|] eqn:Hb.
  - apply dict_of_lines_lookup in Hb as (line' & _ & _ & ->). by exists 0.
  - apply dict_of_lines_None in Hb. set_solver.
Qed.

Lemma dict_of_lines_is_Some {A} (f : SovLine -> A) lines line :
  line ∈ lines -> is_Some (dict_of_lines f lines !! sov_line_id line).
Proof.
  intros Hin. destruct (dict_of_lines f lines !! sov_line_id line) eqn:Hd; [done|].
  apply dict_of_lines_None in Hd. set_solver.
Qed.

Lemma bill_line_billed_ok lines svals nums pm sb items pt line (w w' : World G E)
    sb' items' pt' :
  billed_ok lines sb ->
  bill_line svals nums pm (sb, items, pt) line w = Some ((sb', items', pt'), w') ->
  billed_ok lines sb'.
Proof.
  intros Hok (sv & billed & _ & Hb & [(-> & _)|Hstep])%bill_line_Some; [done|].
  destruct Hstep as (pb & li & Hpb & _ & _ & -> & _).
  intros line' Hin. destruct (Hok line' Hin) as (b' & Hb' & Hnn).
  destruct (decide (sov_line_id line' = sov_line_id line)) as [Heq|Hne].
  - rewrite Heq, lookup_insert_eq. rewrite Heq, Hb in Hb'. injection Hb' as <-.
    eexists. split; [done|lia].
  - rewrite lookup_insert_ne by done. by exists b'.
Qed.

Lemma bill_line_total lines svals nums pm sb items pt line (w : World G E) :
  line ∈ lines -> billed_ok lines sb ->
  is_Some (svals !! sov_line_id line) -> is_Some (nums !! sov_line_id line) ->
  is_Some (bill_line svals nums pm (sb, items, pt) line w).
Proof.
  intros Hin Hok [sv Hsv] [num Hnum]. destruct (Hok line Hin) as (billed & Hb & Hnn).
  unfold bill_line.
  apply bind_total; [by apply getitem_total|]. intros ? w1 [Hnum' ->]%getitem_Some.
  apply bind_total; [by apply getitem_total|]. intros ? w2 [Hsv' ->]%getitem_Some.
  apply bind_total; [by apply getitem_total|]. intros ? w3 [Hb' ->]%getitem_Some.
  rewrite Hnum in Hnum'. injection Hnum' as <-.
  rewrite Hsv in Hsv'. injection Hsv' as <-. rewrite Hb in Hb'. injection Hb' as <-.
  apply bind_total; [apply random_uniform_total|]. intros u w4 _.
  set (raw := py_round (Qmax (inject_Z sv * target_pct_of num pm - inject_Z billed) 0
                        * u / 100) * 100).
  set (pb := if billed + raw >? sv then sv - billed else raw).
  assert (Hcap : billed + pb <= sv).
  { subst pb. destruct (Z.gtb_spec (billed + raw) sv); lia. }
  destruct (Z.gtb_spec pb 0) as [Hpos|Hneg]; [|apply ret_total].
  apply bind_total; [apply getitem_total; by rewrite lookup_insert_eq|].
  intros b' w5 _. apply bind_total; [|intros; apply ret_total].
  apply fdiv_total, inject_Z_nonzero. lia.
Qed.

Lemma bill_month_billed_ok project lines svals nums start sb billing month
    (w w' : World G E) sb' billing' :
  billed_ok lines sb ->
  bill_month project lines svals nums start (sb, billing) month w
    = Some ((sb', billing'), w') ->
  billed_ok lines sb'.
Proof.
  unfold bill_month. intros Hok Hm.
  apply bind_Some in Hm as (month_pct & w1 & _ & Hm).
  apply bind_Some in Hm as ([[sb1 items] pt] & w2 & Hlines & Hm).
  assert (Hok1 : billed_ok lines sb1).
  { pose proof (foldM_invariant (fun st : MonthState => billed_ok lines st.1.1)
                  (bill_line svals nums (progress_mult_of month_pct)) lines
                  (sb, [], 0) w1 (sb1, items, pt) w2) as HI.
    simpl in HI. apply HI; [|exact Hok|exact Hlines].
    intros [[sb2 items2] pt2] line w3 [[sb3 items3] pt3] w4 _ Hok2 Hstep.
    by eapply bill_line_billed_ok. }
  destruct (pt >? 0).
  - apply bind_Some in Hm as (status & w3 & _ & Hm).
    apply bind_Some in Hm as (r & w4 & _ & Hm).
    apply bind_Some in Hm as (pay & w5 & _ & Hm).
    by apply ret_Some in Hm as [[= <- <-] _].
  - by apply ret_Some in Hm as [[= <- <-] _].
Qed.

Lemma bill_month_total `{!PRNGLaws G} project lines start sb billing month
    (w : World G E) :
  prj_duration_months project <> 0 -> billed_ok lines sb ->
  is_Some (bill_month project lines (dict_of_lines scheduled_value lines)
             (dict_of_lines line_number lines) start (sb, billing) month w).
Proof.
  intros Hd Hok. unfold bill_month.
  apply bind_total.
  { by apply fdiv_total, inject_Z_nonzero. }
  intros month_pct w1 _. apply bind_total.
  - apply (foldM_total (fun st : MonthState => billed_ok lines st.1.1)); [| |exact Hok].
    + intros [[sb2 items2] pt2] line w3 Hin Hok2.
      eapply bill_line_total; [exact Hin|exact Hok2| |];
        by apply dict_of_lines_is_Some.
    + intros [[sb2 items2] pt2] line w3 [[sb3 items3] pt3] w4 _ Hok2 Hstep.
      by eapply bill_line_billed_ok.
  - intros [[sb1 items] pt] w2 _. destruct (pt >? 0); [|apply ret_total].
    apply bind_total.
    { destruct (month <? _); [by apply random_choice_total|apply ret_total]. }
    intros status w3 _. apply bind_total; [apply random_random_total|].
    intros r w4 _. apply bind_total; [|intros; apply ret_total].
    destruct (Qltb 0.2 r); [|apply ret_total].
    apply bind_total; [by apply random_randint_total|]. intros; apply ret_total.
Qed.

(** With a host that keeps the laws of [random], [generate_billing_history]
    raises nothing unless the duration is zero months (the month then divides
    by zero on line 687). *)
Lemma generate_billing_history_total `{!PRNGLaws G} project lines cv start
    (w : World G E) :
  prj_duration_months project <> 0 ->
  is_Some (generate_billing_history project lines cv start w).
Proof.
  intros Hd. unfold generate_billing_history.
  apply bind_total; [|intros [sb billing] w1 _; apply ret_total].
  apply (foldM_total (fun st : gmap string Z * list BillingApplication =>
                        billed_ok lines st.1)); [| |apply billed_ok_init].
  - intros [sb billing] month w1 _ Hok. by apply bill_month_total.
  - intros [sb billing] month w1 [sb' billing'] w2 _ Hok Hstep.
    by eapply bill_month_billed_ok.
Qed.

End BillingFacts.

(** ** Billing: the statements *)

Lemma example_billing_run :
  generate_billing_history example_project example_sov 1000000 example_start
    example_sov_world = Some (example_billing, example_billing_world).
Proof. vm_compute. reflexivity. Qed.

Lemma example_sov_run :
  generate_sov example_project 1000000 (boot 42 0) = Some (example_sov, example_sov_world).
Proof. vm_compute. reflexivity. Qed.

Lemma example_sov_NoDup : NoDup (sov_line_id <$> example_sov).
Proof. apply (bool_decide_unpack _). vm_compute. exact I. Qed.

Lemma example_sov_nonneg : Forall (fun line => 0 <= scheduled_value line) example_sov.
Proof. unfold example_sov. repeat constructor; simpl; lia. Qed.

Section BillingClaims.
Context {G E : Type} `{PRNG G} `{OsEntropy E}.

(** C2.  In every billing application that [generate_billing_history] returns,
    every line item's [total_billed] is at most the [scheduled_value] of the
    SOV line it is recorded against.  The item adds a positive [this_period]
    to [previous_billed], so the cap holds after every monthly step.  The lines
    are told apart by [sov_line_id], as those of [generate_sov] are. *)
Theorem total_billed_within_scheduled_value project lines cv start
    (w w' : World G E) apps :
  NoDup (sov_line_id <$> lines) ->
  generate_billing_history project lines cv start w = Some (apps, w') ->
  forall app li line,
    app ∈ apps -> li ∈ line_items app -> line ∈ lines ->
    sov_line_id line = li_sov_line_id li ->
    li_scheduled_value li = scheduled_value line /\
    0 < this_period li /\
    total_billed li = previous_billed li + this_period li /\
    total_billed li <= scheduled_value line.
Proof.
  intros Hnd (sb & _ & _ & Hall & _)%generate_billing_history_inv
         app li line Happ Hli Hline Hid.
  eapply Forall_forall in Hall as ((_ & _ & _ & _ & Hitems) & _); [|exact Happ].
  eapply Forall_forall in Hitems as (Hle & Hsv & Hthis & Htot); [|exact Hli].
  rewrite <- Hid, (dict_of_lines_NoDup _ _ _ Hnd Hline) in Hsv.
  injection Hsv as Heq. split; [done|]. split; [done|]. split; [done|]. lia.
Qed.

Lemma apps_ordered project lines cv start (w w' : World G E) apps a b :
  generate_billing_history project lines cv start w = Some (apps, w') ->
  a ∈ apps -> b ∈ apps -> application_number a < application_number b ->
  cumulative_billed a < cumulative_billed b.
Proof.
  intros (sb & _ & _ & _ & Hsorted & _)%generate_billing_history_inv
         [i Hi]%list_elem_of_lookup [j Hj]%list_elem_of_lookup Hlt.
  destruct (Nat.lt_trichotomy i j) as [Hij|[->|Hji]].
  - by destruct (StronglySorted_lookup_lt _ _ _ _ _ _ Hsorted Hij Hi Hj).
  - rewrite Hi in Hj. injection Hj as ->. lia.
  - destruct (StronglySorted_lookup_lt _ _ _ _ _ _ Hsorted Hji Hj Hi). lia.
Qed.

Lemma cumulative_billed_bound project lines cv start (w w' : World G E) apps :
  generate_billing_history project lines cv start w = Some (apps, w') ->
  Forall (fun line => 0 <= scheduled_value line) lines ->
  forall a, a ∈ apps -> cumulative_billed a <= Zsum (scheduled_value <$> lines).
Proof.
  intros Hall%cumulative_billed_capped Hnn a Ha.
  rewrite <- (Zsum_max_nonneg _ Hnn). by eapply Forall_forall in Hall.
Qed.

(** C3, amended.  Among the billing applications of one contract, a larger
    [application_number] never comes with a smaller [cumulative_billed].  No
    [cumulative_billed] exceeds the sum of the scheduled values that are not
    negative, [max(0, scheduled_value)] over the SOV lines: a line of negative
    value is never billed.  So no [cumulative_billed] exceeds the sum of all
    the scheduled values when no line is negative, and none exceeds the
    contract value when the lines are those of [generate_sov] for a contract
    value of at least 91,000. *)
Theorem cumulative_billed_monotone_and_bounded project lines cv start
    (w w' : World G E) apps :
  generate_billing_history project lines cv start w = Some (apps, w') ->
  StronglySorted (fun a b => application_number a < application_number b) apps /\
  (forall a b, a ∈ apps -> b ∈ apps ->
     application_number a < application_number b ->
     cumulative_billed a <= cumulative_billed b) /\
  (forall a, a ∈ apps ->
     cumulative_billed a
       <= Zsum ((fun line => Z.max 0 (scheduled_value line)) <$> lines)) /\
  (Forall (fun line => 0 <= scheduled_value line) lines ->
   forall a, a ∈ apps ->
     cumulative_billed a <= Zsum (scheduled_value <$> lines)) /\
  (PRNGLaws G -> 91000 <= cv ->
   forall w0 w1 : World G E, generate_sov project cv w0 = Some (lines, w1) ->
   forall a, a ∈ apps -> cumulative_billed a <= cv).
Proof.
  intros Hrun. split; [|split; [|split; [|split]]].
  - apply generate_billing_history_inv in Hrun as (sb & _ & _ & _ & Hsorted & _).
    eapply StronglySorted_weaken; [|exact Hsorted]. by intros a b [? _].
  - intros a b Ha Hb Hlt.
    pose proof (apps_ordered _ _ _ _ _ _ _ _ _ Hrun Ha Hb Hlt). lia.
  - intros a Ha. apply cumulative_billed_capped in Hrun.
    by eapply Forall_forall in Hrun.
  - intros Hnn a Ha. by eapply cumulative_billed_bound.
  - intros Hlaws Hcv w0 w1 Hsov a Ha.
    rewrite <- (generate_sov_sum _ _ _ _ _ Hsov).
    eapply cumulative_billed_bound; [exact Hrun| |exact Ha].
    by eapply generate_sov_nonneg.
Qed.

(** C4, amended.  For a project of twelve months [generate_billing_history]
    returns at most twelve billing applications: month 0 has none, and each
    application is the one of a month from 1 to 12 (its number from 2 to 13)
    whose [period_total] is positive.  The [cumulative_billed] of the last
    application is at most the sum of the scheduled values that are not
    negative, hence at most the sum of all the scheduled values when no line
    is negative; how far below is not bounded by 100. *)
Theorem at_most_one_application_per_month_after_the_first `{!PRNGLaws G}
    project lines cv start (w : World G E) :
  prj_duration_months project = 12 ->
  exists apps w',
    generate_billing_history project lines cv start w = Some (apps, w') /\
    (length apps <= 12)%nat /\
    StronglySorted (fun a b => application_number a < application_number b) apps /\
    Forall (fun a => 2 <= application_number a <= 13 /\ 0 < period_total a) apps /\
    (forall a, last apps = Some a ->
       cumulative_billed a
         <= Zsum ((fun line => Z.max 0 (scheduled_value line)) <$> lines)) /\
    (Forall (fun line => 0 <= scheduled_value line) lines ->
     forall a, last apps = Some a ->
       cumulative_billed a <= Zsum (scheduled_value <$> lines)).
Proof.
  intros Hd.
  destruct (generate_billing_history_total project lines cv start w)
    as [[apps w'] Hrun]; [lia|].
  exists apps, w'. split; [exact Hrun|].
  pose proof Hrun as (sb & _ & _ & Hall & Hsorted & Hlen)%generate_billing_history_inv.
  rewrite Hd in Hall, Hlen. simpl in Hall, Hlen, Hsorted.
  split; [lia|]. split; [|split; [|split]].
  - eapply StronglySorted_weaken; [|exact Hsorted]. by intros a b [? _].
  - eapply Forall_impl; [exact Hall|]. simpl.
    intros a ((Hpos & _) & Hnum & _). lia.
  - intros a Ha. apply cumulative_billed_capped in Hrun.
    eapply Forall_forall in Hrun; [exact Hrun|].
    apply last_Some in Ha as [l' ->]. set_solver.
  - intros Hnn a Ha.
    apply (cumulative_billed_bound project lines cv start w w' apps Hrun Hnn).
    apply last_Some in Ha as [l' ->]. set_solver.
Qed.

(** C6.  In every billing application that [generate_billing_history] returns,
    [retention_held] is 0.10 times [cumulative_billed] and [net_payment_due]
    is [cumulative_billed] minus [retention_held]. *)
Theorem retention_and_net_payment project lines cv start (w w' : World G E) apps :
  generate_billing_history project lines cv start w = Some (apps, w') ->
  forall a, a ∈ apps ->
    (retention_held a == 0.10 * inject_Z (cumulative_billed a))%Q /\
    (net_payment_due a == inject_Z (cumulative_billed a) - retention_held a)%Q.
Proof.
  intros (sb & _ & _ & Hall & _)%generate_billing_history_inv a Ha.
  eapply Forall_forall in Hall as ((_ & _ & Hret & Hnet & _) & _); [|exact Ha].
  rewrite Hnet, Hret. split; ring.
Qed.

(** C10.  The application numbers of one history are strictly increasing,
    each is the index of its month plus 1, and every application has a
    positive [period_total].  Month 0 never has an application, so no history
    starts at number 1; and the numbers need not be contiguous: in the history
    of the example project no application has number 12. *)
Theorem application_numbers_increase_with_gaps :
  (forall project lines cv start (w w' : World G E) apps,
     generate_billing_history project lines cv start w = Some (apps, w') ->
     StronglySorted (fun a b => application_number a < application_number b) apps /\
     Forall (fun a =>
               0 < period_total a /\
               exists month,
                 1 <= month <= prj_duration_months project /\
                 application_number a = month + 1 /\
                 period_end a = start + (30 * month + 25)) apps) /\
  (exists apps w',
     generate_billing_history example_project example_sov 1000000 example_start
       example_sov_world = Some (apps, w') /\
     application_number <$> apps = [2; 3; 4; 5; 6; 7; 8; 9; 10; 11; 13]).
Proof.
  split.
  - intros project lines cv start w w' apps
           (sb & _ & _ & Hall & Hsorted & _)%generate_billing_history_inv.
    split.
    + eapply StronglySorted_weaken; [|exact Hsorted]. by intros a b [? _].
    + eapply Forall_impl; [exact Hall|]. simpl.
      intros a ((Hpos & Hend & _) & Hnum & _). split; [done|].
      exists (application_number a - 1). split; [lia|]. split; [lia|done].
  - exists example_billing, example_billing_world.
    split; [exact example_billing_run|]. vm_compute. reflexivity.
Qed.
End BillingClaims.

Lemma total_billed_within_scheduled_value_witness :
  NoDup (sov_line_id <$> example_sov) /\
  generate_billing_history example_project example_sov 1000000 example_start
    example_sov_world = Some (example_billing, example_billing_world) /\
  forall app li line,
    app ∈ example_billing -> li ∈ line_items app -> line ∈ example_sov ->
    sov_line_id line = li_sov_line_id li ->
    li_scheduled_value li = scheduled_value line /\
    0 < this_period li /\
    total_billed li = previous_billed li + this_period li /\
    total_billed li <= scheduled_value line.
Proof.
  split; [exact example_sov_NoDup|]. split; [exact example_billing_run|].
  exact (total_billed_within_scheduled_value _ _ _ _ _ _ _
           example_sov_NoDup example_billing_run).
Defined.

Lemma cumulative_billed_monotone_and_bounded_witness :
  generate_billing_history example_project example_sov 1000000 example_start
    example_sov_world = Some (example_billing, example_billing_world) /\
  Forall (fun line => 0 <= scheduled_value line) example_sov /\
  PRNGLaws Z /\ 91000 <= 1000000 /\
  generate_sov example_project 1000000 (boot 42 0)
    = Some (example_sov, example_sov_world) /\
  StronglySorted (fun a b => application_number a < application_number b)
                 example_billing /\
  (forall a b, a ∈ example_billing -> b ∈ example_billing ->
     application_number a < application_number b ->
     cumulative_billed a <= cumulative_billed b) /\
  (forall a, a ∈ example_billing ->
     cumulative_billed a
       <= Zsum ((fun line => Z.max 0 (scheduled_value line)) <$> example_sov)) /\
  (forall a, a ∈ example_billing ->
     cumulative_billed a <= Zsum (scheduled_value <$> example_sov)) /\
  (forall a, a ∈ example_billing -> cumulative_billed a <= 1000000).
Proof.
  split; [exact example_billing_run|]. split; [exact example_sov_nonneg|].
  split; [exact lcg_laws|]. split; [lia|]. split; [exact example_sov_run|].
  destruct (cumulative_billed_monotone_and_bounded _ _ _ _ _ _ _ example_billing_run)
    as (Hsorted & Hmono & Hcap & Hbound & Hcv).
  split; [exact Hsorted|]. split; [exact Hmono|]. split; [exact Hcap|].
  split; [exact (Hbound example_sov_nonneg)|].
  exact (Hcv lcg_laws ltac:(lia) _ _ example_sov_run).
Defined.

(** The same project on a contract of 2,000: the schedule of values sums to
    2,000 with a last line of -100, and the last application has billed 2,100,
    more than the sum of the scheduled values. *)
Lemma cumulative_billed_exceeds_small_contract :
  generate_sov example_project 2000 (boot 42 0) = Some (small_sov, small_sov_world) /\
  scheduled_value <$> small_sov
    = [100; 100; 200; 200; 200; 100; 300; 200; 200; 200; 100; 100; 100; 0; -100] /\
  Zsum (scheduled_value <$> small_sov) = 2000 /\
  generate_billing_history example_project small_sov 2000 example_start
    small_sov_world = Some (small_billing, small_billing_world) /\
  exists a, a ∈ small_billing /\ cumulative_billed a = 2100 /\
            ~ cumulative_billed a <= Zsum (scheduled_value <$> small_sov).
Proof.
  split; [vm_compute; reflexivity|]. split; [reflexivity|]. split; [reflexivity|].
  split; [vm_compute; reflexivity|].
  destruct (last small_billing) as [a|] eqn:Hlast; [|discriminate Hlast].
  exists a. split; [apply last_Some in Hlast as [l' ->]; set_solver|].
  injection Hlast as <-. split; [reflexivity|]. vm_compute. intros Hle. by apply Hle.
Qed.

Lemma at_most_one_application_per_month_after_the_first_witness :
  prj_duration_months example_project = 12 /\
  Forall (fun line => 0 <= scheduled_value line) example_sov /\
  exists apps w',
    generate_billing_history example_project example_sov 1000000 example_start
      example_sov_world = Some (apps, w') /\
    (length apps <= 12)%nat /\
    StronglySorted (fun a b => application_number a < application_number b) apps /\
    Forall (fun a => 2 <= application_number a <= 13 /\ 0 < period_total a) apps /\
    (forall a, last apps = Some a ->
       cumulative_billed a
         <= Zsum ((fun line => Z.max 0 (scheduled_value line)) <$> example_sov)) /\
    (forall a, last apps = Some a ->
       cumulative_billed a <= Zsum (scheduled_value <$> example_sov)).
Proof.
  split; [reflexivity|]. split; [exact example_sov_nonneg|].
  destruct (at_most_one_application_per_month_after_the_first
              example_project example_sov 1000000 example_start example_sov_world
              (eq_refl : prj_duration_months example_project = 12))
    as (apps & w' & Hrun & Hlen & Hsorted & Hall & Hcap & Hbound).
  exists apps, w'. split; [exact Hrun|]. split; [exact Hlen|].
  split; [exact Hsorted|]. split; [exact Hall|]. split; [exact Hcap|].
  exact (Hbound example_sov_nonneg).
Defined.

(** The scenario of twelve months, medium complexity and a contract of
    1,000,000: eleven applications, not thirteen, and the last one 6,700 short
    of the sum of the scheduled values. *)
Lemma thirteen_applications_counterexample :
  prj_duration_months example_project = 12 /\
  prj_complexity example_project = "medium" /\
  Zsum (scheduled_value <$> example_sov) = 1000000 /\
  exists apps w' final,
    generate_billing_history example_project example_sov 1000000 example_start
      example_sov_world = Some (apps, w') /\
    length apps = 11%nat /\ length apps <> 13%nat /\
    last apps = Some final /\
    cumulative_billed final = 993300 /\
    100 < Z.abs (Zsum (scheduled_value <$> example_sov) - cumulative_billed final).
Proof.
  split; [reflexivity|]. split; [reflexivity|]. split; [reflexivity|].
  exists example_billing, example_billing_world.
  eexists. split; [exact example_billing_run|].
  split; [reflexivity|]. split; [by vm_compute|].
  split; [vm_compute; reflexivity|]. split; [reflexivity|]. by vm_compute.
Qed.

Lemma retention_and_net_payment_witness :
  generate_billing_history example_project example_sov 1000000 example_start
    example_sov_world = Some (example_billing, example_billing_world) /\
  forall a, a ∈ example_billing ->
    (retention_held a == 0.10 * inject_Z (cumulative_billed a))%Q /\
    (net_payment_due a == inject_Z (cumulative_billed a) - retention_held a)%Q.
Proof.
  split; [exact example_billing_run|].
  exact (retention_and_net_payment _ _ _ _ _ _ _ example_billing_run).
Defined.

Lemma application_numbers_increase_with_gaps_witness :
  generate_billing_history example_project example_sov 1000000 example_start
    example_sov_world = Some (example_billing, example_billing_world) /\
  StronglySorted (fun a b => application_number a < application_number b)
                 example_billing /\
  Forall (fun a =>
            0 < period_total a /\
            exists month,
              1 <= month <= prj_duration_months example_project /\
              application_number a = month + 1 /\
              period_end a = example_start + (30 * month + 25)) example_billing.
Proof.
  split; [exact example_billing_run|].
  exact (proj1 (application_numbers_increase_with_gaps (G:=Z) (E:=Z))
           _ _ _ _ _ _ _ example_billing_run).
Defined.

(** ** Labor logs *)

Section LaborFacts.
Context {G E : Type} `{PRNG G} `{OsEntropy E}.

Lemma draw_hours_Some (w w' : World G E) hours_st hours_ot :
  draw_hours w = Some ((hours_st, hours_ot), w') ->
  let r := (prng_random (w_rng w)).1 in
  let r' := (prng_random (prng_random (w_rng w)).2).1 in
  if Qltb r 0.15 then hours_st = 8 /\ hours_ot ∈ [2; 4]
  else hours_ot = 0 /\
       if Qltb 0.1 r' then hours_st = 8 else hours_st ∈ [4; 6; 10].
Proof.
  unfold draw_hours. intros Hm. cbv zeta.
  apply bind_Some in Hm as (r & w1 & [-> ->]%random_random_Some & Hm).
  destruct (Qltb _ 0.15).
  - apply bind_Some in Hm as (ot & w2 & Hot%random_choice_Some & Hm).
    apply ret_Some in Hm as [[= <- <-] _]. done.
  - apply bind_Some in Hm as (r' & w2 & [-> ->]%random_random_Some & Hm).
    apply bind_Some in Hm as (st & w3 & Hst & Hm).
    apply ret_Some in Hm as [[= <- <-] _]. split; [done|]. cbn [w_rng] in Hst |- *.
    destruct (Qltb 0.1 _).
    + by apply ret_Some in Hst as [<- _].
    + by apply random_choice_Some in Hst.
Qed.

Lemma labor_entry_Some project active current_date worker (w w' : World G E) e :
  labor_entry project active current_date worker w = Some (e, w') -> hours_ok e.
Proof.
  unfold labor_entry. intros Hm.
  apply bind_Some in Hm as (sov & w1 & _ & Hm).
  apply bind_Some in Hm as ([st ot] & w2 & Hh%draw_hours_Some & Hm).
  apply bind_Some in Hm as (u & w3 & _ & Hm).
  apply bind_Some in Hm as (emp & w4 & _ & Hm).
  apply bind_Some in Hm as (floor & w5 & _ & Hm).
  apply ret_Some in Hm as [<- _]. unfold hours_ok. simpl in *.
  destruct (Qltb _ 0.15).
  - destruct Hh as [-> Hot]. set_unfold. intuition lia.
  - destruct Hh as [-> Hst]. destruct (Qltb 0.1 _); set_unfold; intuition lia.
Qed.

Lemma labor_day_Some project lines days current_date day_count
    (w w' : World G E) entries :
  labor_day project lines days current_date day_count w = Some (entries, w') ->
  Forall hours_ok entries.
Proof.
  unfold labor_day. intros Hm.
  apply bind_Some in Hm as (phase_pct & w1 & _ & Hm).
  apply bind_Some in Hm as (base_crew & w2 & _ & Hm).
  apply bind_Some in Hm as (active & w3 & _ & Hm).
  apply bind_Some in Hm as (workers & w4 & _ & Hm).
  apply bind_Some in Hm as (extra & w5 & _ & Hm).
  eapply mapM_Forall; [|exact Hm].
  intros worker w6 e w7 _. apply labor_entry_Some.
Qed.

Lemma labor_days_Some n project lines days current_date day_count logs
    (w w' : World G E) logs' :
  labor_days n project lines days current_date day_count logs w = Some (logs', w') ->
  Forall hours_ok logs -> Forall hours_ok logs'.
Proof.
  revert current_date day_count logs w.
  induction n as [|n IH]; intros current_date day_count logs w Hm Hlogs; simpl in Hm.
  - by apply ret_Some in Hm as [<- _].
  - apply bind_Some in Hm as (entries & w1 & Hday%labor_day_Some & Hm).
    eapply IH; [exact Hm|]. by apply Forall_app.
Qed.

(** C9.  In every labor log entry of [generate_labor_logs]: when [hours_ot] is
    positive, [hours_st] is 8 and [hours_ot] is between 2 and 4; when
    [hours_ot] is 0, [hours_st] is one of 4, 6, 8 and 10.  By the draws of
    [draw_hours]: overtime (2 or 4) when the first [random()] is below 0.15;
    otherwise 8 standard hours when the second [random()] is above 0.1, and
    one of 4, 6 and 10 in the remaining tenth. *)
Theorem labor_hours_by_branch :
  (forall project lines start (w w' : World G E) logs,
     generate_labor_logs project lines start w = Some (logs, w') ->
     Forall (fun e =>
               (0 < hours_ot e -> hours_st e = 8 /\ 2 <= hours_ot e <= 4) /\
               (hours_ot e = 0 -> hours_st e ∈ [4; 6; 8; 10])) logs) /\
  (forall (w w' : World G E) hours_st hours_ot,
     draw_hours w = Some ((hours_st, hours_ot), w') ->
     let r := (prng_random (w_rng w)).1 in
     let r' := (prng_random (prng_random (w_rng w)).2).1 in
     if Qltb r 0.15 then hours_st = 8 /\ hours_ot ∈ [2; 4]
     else hours_ot = 0 /\
          if Qltb 0.1 r' then hours_st = 8 else hours_st ∈ [4; 6; 10]).
Proof.
  split.
  - intros project lines start w w' logs Hm. unfold generate_labor_logs in Hm.
    apply labor_days_Some in Hm; [|constructor].
    eapply Forall_impl; [exact Hm|]. by intros e (? & ? & _).
  - intros w w' st ot. apply draw_hours_Some.
Qed.
End LaborFacts.

Lemma example_logs_run :
  generate_labor_logs short_project example_sov example_start example_sov_world
    = Some (example_logs, example_logs_world).
Proof. vm_compute. reflexivity. Qed.

Lemma labor_hours_by_branch_witness :
  generate_labor_logs short_project example_sov example_start example_sov_world
    = Some (example_logs, example_logs_world) /\
  Forall (fun e =>
            (0 < hours_ot e -> hours_st e = 8 /\ 2 <= hours_ot e <= 4) /\
            (hours_ot e = 0 -> hours_st e ∈ [4; 6; 8; 10])) example_logs.
Proof.
  split; [exact example_logs_run|].
  exact (proj1 (labor_hours_by_branch (G:=Z) (E:=Z)) _ _ _ _ _ _ example_logs_run).
Defined.

(** ** RFIs *)

Section RfiFacts.
Context {G E : Type} `{PRNG G} `{OsEntropy E}.

Lemma rfi_Some project days start i (w w' : World G E) r :
  rfi project days start i w = Some (r, w') -> rfi_ok r.
Proof.
  unfold rfi. intros Hm.
  apply bind_Some in Hm as (day_offset & w1 & _ & Hm).
  apply bind_Some in Hm as (rd & w2 & Hrd%random_choices1_Some & Hm).
  peel Hm. apply ret_Some in Hm as [<- _].
  match goal with
  | Hs : (if not_none _ then mret "Closed" else _) _ = Some (?st, _) |- _ =>
      rename Hs into Hstatus
  end.
  unfold rfi_ok. simpl.
  destruct (truthy rd) eqn:Htruthy; cbn [not_none] in Hstatus; simpl.
  - apply ret_Some in Hstatus as [<- _].
    split; [split; [done|by eexists]|].
    exists rd. split; [done|]. split; [by intros ->|]. by intros n ->.
  - apply random_choice_Some in Hstatus.
    assert (rd = None) as ->.
    { set_unfold. destruct Hrd as [->|[->|[->|[->|[->|[->|[->|[]]]]]]]]; done. }
    split.
    + split; [by intros [? [=]]|]. intros ->. set_unfold. naive_solver.
    + exists None. split; [done|]. split; [done|]. by intros n [=].
Qed.

(** C8.  In every RFI of [generate_rfis], [date_responded] is present if and
    only if the status is [Closed].  The response delay is one of 3, 5, 7, 10,
    14 and 21 days, or none: with none, [date_responded] is absent and the
    status is [Open] or [Pending Response]; with a delay, [date_responded] is
    that many days after [date_submitted] and the status is [Closed]. *)
Theorem rfi_responded_iff_closed project start (w w' : World G E) rfis :
  generate_rfis project start w = Some (rfis, w') ->
  Forall (fun r =>
    (is_Some (date_responded r) <-> rf_status r = "Closed") /\
    exists response_days : option Z,
      response_days ∈ [Some 3; Some 5; Some 7; Some 10; Some 14; Some 21; None] /\
      (response_days = None ->
         date_responded r = None /\ rf_status r ∈ ["Open"; "Pending Response"]) /\
      (forall n, response_days = Some n ->
         date_responded r = Some (date_submitted r + n) /\ rf_status r = "Closed"))
    rfis.
Proof.
  unfold generate_rfis. intros Hm.
  apply bind_Some in Hm as (n_low & w1 & _ & Hm).
  apply bind_Some in Hm as (n_medium & w2 & _ & Hm).
  apply bind_Some in Hm as (n_high & w3 & _ & Hm).
  apply bind_Some in Hm as (num_rfis & w4 & _ & Hm).
  apply bind_Some in Hm as (rfis0 & w5 & Hrfis & Hm).
  apply ret_Some in Hm as [<- _].
  rewrite sorted_by_Permutation.
  eapply (mapM_Forall rfi_ok); [|exact Hrfis].
  intros i w6 r w7 _. apply rfi_Some.
Qed.
End RfiFacts.

Lemma example_rfis_run :
  generate_rfis short_project example_start example_sov_world
    = Some (example_rfis, example_rfis_world).
Proof. vm_compute. reflexivity. Qed.

Lemma rfi_responded_iff_closed_witness :
  generate_rfis short_project example_start example_sov_world
    = Some (example_rfis, example_rfis_world) /\
  Forall (fun r =>
    (is_Some (date_responded r) <-> rf_status r = "Closed") /\
    exists response_days : option Z,
      response_days ∈ [Some 3; Some 5; Some 7; Some 10; Some 14; Some 21; None] /\
      (response_days = None ->
         date_responded r = None /\ rf_status r ∈ ["Open"; "Pending Response"]) /\
      (forall n, response_days = Some n ->
         date_responded r = Some (date_submitted r + n) /\ rf_status r = "Closed"))
    example_rfis.
Proof.
  split; [exact example_rfis_run|].
  exact (rfi_responded_iff_closed _ _ _ _ _ example_rfis_run).
Defined.

(** ** Material deliveries *)

Lemma sov_to_materials_Some (n : Z) i kv :
  list_find (fun kv : Z * string => kv.1 = n) sov_to_materials = Some (i, kv) ->
  3 <= n <= 12 /\ kv.1 = n /\
  is_Some (list_find (fun c => category c = kv.2) MATERIAL_CATEGORIES).
Proof.
  intros (Hi & <- & _)%list_find_Some.
  apply list_elem_of_lookup_2 in Hi. unfold sov_to_materials in Hi.
  set_unfold.
  destruct Hi as [->|[->|[->|[->|[->|[->|[->|[->|[->|[->|[]]]]]]]]]]];
    (split; [simpl; lia|split; [done|by eexists]]).
Qed.

Lemma sov_to_materials_None (n : Z) :
  list_find (fun kv : Z * string => kv.1 = n) sov_to_materials = None ->
  ~ (3 <= n <= 12).
Proof.
  intros Hf%list_find_None. unfold sov_to_materials in Hf.
  repeat (apply Forall_cons in Hf as [? Hf]). simpl in *. lia.
Qed.

Section DeliveryFacts.
Context {G E : Type} `{PRNG G} `{OsEntropy E}.

Lemma delivery_Some project line cat info days start value (w w' : World G E) d :
  delivery project line cat info days start value w = Some (d, w') ->
  total_cost d = py_round_to 100 value /\ dl_sov_line_id d = sov_line_id line.
Proof.
  unfold delivery. intros Hm.
  apply bind_Some in Hm as (day_offset & w1 & _ & Hm).
  apply bind_Some in Hm as (item & w2 & _ & Hm).
  apply bind_Some in Hm as ([qty unit] & w3 & _ & Hm).
  peel Hm. by apply ret_Some in Hm as [<- _].
Qed.

Lemma line_deliveries_Some `{!PRNGLaws G} project days start line
    (w w' : World G E) ds :
  line_deliveries project days start line w = Some (ds, w') ->
  Forall (fun d => dl_sov_line_id d = sov_line_id line) ds /\
  (3 <= line_number line <= 12 ->
     (3 <= length ds <= 8)%nat /\
     (Qabs (Qsum (total_cost <$> ds)
            - inject_Z (scheduled_value line) * material_pct line)
        <= (1 # 200) * inject_Z (Z.of_nat (length ds)))%Q) /\
  (~ (3 <= line_number line <= 12) -> ds = []).
Proof.
  unfold line_deliveries.
  destruct (list_find _ sov_to_materials) as [[i [k cat]]|] eqn:Hfind.
  - apply sov_to_materials_Some in Hfind as (Hrange & _ & _).
    intros Hm.
    apply bind_Some in Hm as (info & w1 & _ & Hm).
    apply bind_Some in Hm as (num & w2 & Hnum%random_randint_range & Hm).
    apply bind_Some in Hm as (raws & w3 & Hraws%mapM_length & Hm).
    apply bind_Some in Hm as (values & w4 & Hvalues & Hm).
    rewrite length_seqZ in Hraws.
    pose proof (mapM_length _ _ _ _ _ Hvalues) as Hlv.
    pose proof (mapM_length _ _ _ _ _ Hm) as Hld.
    apply mapM_Some in Hvalues, Hm.
    set (budget := (inject_Z (scheduled_value line) * material_pct line)%Q) in *.
    assert (Hscaled : Forall2 (fun v q => ~ (Qsum raws == 0)%Q /\
                                         q = (v / Qsum raws * budget)%Q) raws values).
    { eapply Forall2_impl; [exact Hvalues|]. simpl.
      intros v q (w5 & w6 & Hq).
      apply bind_Some in Hq as (q0 & w7 & (Hnz & -> & _)%fdiv_Some & Hq).
      by apply ret_Some in Hq as [<- _]. }
    assert (Hnz : ~ (Qsum raws == 0)%Q).
    { destruct raws as [|v raws']; [simpl in Hraws; lia|].
      by inversion Hscaled as [|? ? ? ? [Hnz _] _]. }
    assert (Hsum : (Qsum values == budget)%Q).
    { rewrite (Qsum_scaled (Qsum raws) budget raws values).
      - field. exact Hnz.
      - eapply Forall2_impl; [exact Hscaled|]. by intros v q [_ ->]. }
    split; [|split; [|intros []; exact Hrange]].
    + clear -Hm. induction Hm as [|v d values ds (w5 & w6 & Hd) _ IH]; constructor.
      * by apply delivery_Some in Hd as [_ ?].
      * exact IH.
    + intros _. split; [lia|].
      rewrite <- Hsum, <- (length_fmap total_cost). apply Qsum_rounded.
      apply Forall2_fmap_r. eapply Forall2_impl; [exact Hm|]. simpl.
      intros v d (w5 & w6 & Hd). by apply delivery_Some in Hd as [? _].
  - apply sov_to_materials_None in Hfind.
    intros [<- _]%ret_Some. split; [constructor|]. split; [done|done].
Qed.

Lemma filter_concat_other (k : string) (lines : list SovLine)
    (per_line : list (list Delivery)) :
  Forall2 (fun line ds => Forall (fun d => dl_sov_line_id d = sov_line_id line) ds)
          lines per_line ->
  k ∉ sov_line_id <$> lines ->
  filter (fun d => dl_sov_line_id d = k) (concat per_line) = [].
Proof.
  induction 1 as [|line ds lines per_line Hds _ IH]; [done|].
  intros Hk. simpl. rewrite filter_app, IH by set_solver.
  rewrite filter_none; [done|].
  eapply Forall_impl; [exact Hds|]. simpl. intros d Hd Hk'. apply Hk.
  rewrite <- Hk', Hd. set_solver.
Qed.

Lemma filter_concat_line (P : SovLine -> list Delivery -> Prop) (line : SovLine)
    (lines : list SovLine) (per_line : list (list Delivery)) :
  Forall2 (fun line ds =>
             Forall (fun d => dl_sov_line_id d = sov_line_id line) ds /\ P line ds)
          lines per_line ->
  NoDup (sov_line_id <$> lines) -> line ∈ lines ->
  P line (filter (fun d => dl_sov_line_id d = sov_line_id line) (concat per_line)).
Proof.
  induction 1 as [|line0 ds lines per_line [Hds HP] Hrest IH]; [set_solver|].
  rewrite fmap_cons. intros [Hnotin Hnd]%NoDup_cons Hin. simpl. rewrite filter_app.
  assert (Hids : Forall2 (fun line ds =>
                   Forall (fun d => dl_sov_line_id d = sov_line_id line) ds)
                   lines per_line).
  { eapply Forall2_impl; [exact Hrest|]. by intros ? ? [? _]. }
  destruct (decide (sov_line_id line = sov_line_id line0)) as [Heq|Hne].
  - assert (line = line0) as ->.
    { apply elem_of_cons in Hin as [->|Hin]; [done|].
      destruct Hnotin. rewrite <- Heq. apply list_elem_of_fmap. by exists line. }
    rewrite filter_all by done.
    rewrite (filter_concat_other _ lines per_line) by done.
    by rewrite app_nil_r.
  - rewrite filter_none.
    + simpl. apply IH; [done|]. apply elem_of_cons in Hin as [->|Hin]; done.
    + eapply Forall_impl; [exact Hds|]. simpl. intros d Hd Heq. apply Hne.
      by rewrite <- Heq, Hd.
Qed.

(** C7.  For every SOV line whose [line_number] is from 3 to 12,
    [generate_material_deliveries] makes between 3 and 8 deliveries, and their
    [total_cost] sum to [scheduled_value * material_pct] within 0.04: the
    weights are divided by their sum before they scale the budget, and each
    [total_cost] is rounded to cents, half a cent at most for each of at most
    eight deliveries.  A line outside 3-12 receives no delivery. *)
Theorem deliveries_sum_to_material_budget `{!PRNGLaws G} project lines start
    (w w' : World G E) deliveries :
  NoDup (sov_line_id <$> lines) ->
  generate_material_deliveries project lines start w = Some (deliveries, w') ->
  forall line, line ∈ lines ->
    let mine := filter (fun d => dl_sov_line_id d = sov_line_id line) deliveries in
    (3 <= line_number line <= 12 ->
       (3 <= length mine <= 8)%nat /\
       (Qabs (Qsum (total_cost <$> mine)
              - inject_Z (scheduled_value line) * material_pct line) <= 0.04)%Q) /\
    (~ (3 <= line_number line <= 12) -> mine = []).
Proof.
  intros Hnd Hm line Hline. unfold generate_material_deliveries in Hm.
  apply bind_Some in Hm as (per_line & w1 & Hper%mapM_Some & Hm).
  apply ret_Some in Hm as [<- _]. cbv zeta.
  set (mine := filter _ (sorted_by dl_date (concat per_line))).
  set (mine0 := filter (fun d => dl_sov_line_id d = sov_line_id line)
                       (concat per_line)).
  assert (Hperm : mine ≡ₚ mine0).
  { subst mine mine0. by rewrite sorted_by_Permutation. }
  pose proof (filter_concat_line
    (fun line ds =>
       (3 <= line_number line <= 12 ->
          (3 <= length ds <= 8)%nat /\
          (Qabs (Qsum (total_cost <$> ds)
                 - inject_Z (scheduled_value line) * material_pct line)
             <= (1 # 200) * inject_Z (Z.of_nat (length ds)))%Q) /\
       (~ (3 <= line_number line <= 12) -> ds = []))
    line lines per_line) as Hline_ok.
  fold mine0 in Hline_ok.
  destruct Hline_ok as [Hin Hout]; [|done|done|].
  { eapply Forall2_impl; [exact Hper|]. simpl.
    intros line' ds (w2 & w3 & Hds). by apply line_deliveries_Some in Hds as (? & ? & ?). }
  split.
  - intros Hrange. destruct (Hin Hrange) as [Hlen Hsum].
    rewrite (Permutation_length Hperm). split; [done|].
    rewrite (Qsum_Permutation (total_cost <$> mine) (total_cost <$> mine0))
      by (by rewrite Hperm).
    eapply Qle_trans; [exact Hsum|].
    assert (inject_Z (Z.of_nat (length mine0)) <= 8)%Q.
    { change 8%Q with (inject_Z 8). rewrite <- Zle_Qle. lia. }
    lra.
  - intros Hrange. rewrite (Hout Hrange) in Hperm. by apply Permutation_nil_r.
Qed.
End DeliveryFacts.

Lemma example_deliveries_run :
  generate_material_deliveries example_project example_sov example_start
    example_sov_world = Some (example_deliveries, example_deliveries_world).
Proof. vm_compute. reflexivity. Qed.

Lemma deliveries_sum_to_material_budget_witness :
  PRNGLaws Z /\
  NoDup (sov_line_id <$> example_sov) /\
  generate_material_deliveries example_project example_sov example_start
    example_sov_world = Some (example_deliveries, example_deliveries_world) /\
  forall line, line ∈ example_sov ->
    let mine := filter (fun d => dl_sov_line_id d = sov_line_id line)
                       example_deliveries in
    (3 <= line_number line <= 12 ->
       (3 <= length mine <= 8)%nat /\
       (Qabs (Qsum (total_cost <$> mine)
              - inject_Z (scheduled_value line) * material_pct line) <= 0.04)%Q) /\
    (~ (3 <= line_number line <= 12) -> mine = []).
Proof.
  split; [exact lcg_laws|]. split; [exact example_sov_NoDup|].
  split; [exact example_deliveries_run|].
  exact (deliveries_sum_to_material_budget _ _ _ _ _ _
           example_sov_NoDup example_deliveries_run).
Defined.

(** ** Reproducibility *)

Section Reproducibility.
Context {G E : Type} `{PRNG G} `{OsEntropy E}.

Lemma rel_ret {A} (R : A -> A -> Prop) a1 a2 :
  R a1 a2 -> rel (G:=G) (E:=E) R (mret a1) (mret a2).
Proof. intros HR w1 w2 Hw. done. Qed.

Lemma rel_raise {A} (R : A -> A -> Prop) : rel (G:=G) (E:=E) R raise raise.
Proof. intros w1 w2 Hw. done. Qed.

Lemma rel_bind {A B} (RA : A -> A -> Prop) (RB : B -> B -> Prop)
    (c1 c2 : M G E A) (f1 f2 : A -> M G E B) :
  rel RA c1 c2 -> (forall a1 a2, RA a1 a2 -> rel RB (f1 a1) (f2 a2)) ->
  rel RB (c1 ≫= f1) (c2 ≫= f2).
Proof.
  intros Hc Hf w1 w2 Hw. specialize (Hc w1 w2 Hw). unfold mbind, M_bind.
  destruct (c1 w1) as [[a1 w1']|], (c2 w2) as [[a2 w2']|]; try done.
  destruct Hc as [Ha Hw']. by apply Hf.
Qed.

Lemma rel_bind_eq {A B} (RB : B -> B -> Prop) (c : M G E A) (f1 f2 : A -> M G E B) :
  rel eq c c -> (forall a, rel RB (f1 a) (f2 a)) -> rel RB (c ≫= f1) (c ≫= f2).
Proof. intros Hc Hf. eapply rel_bind; [exact Hc|]. intros a ? <-. apply Hf. Qed.

Lemma rel_lift_rng {A} (f : G -> A * G) : rel (E:=E) eq (lift_rng f) (lift_rng f).
Proof.
  intros w1 w2 Hw. unfold lift_rng. rewrite Hw.
  destruct (f (w_rng w2)) as [a g]. done.
Qed.

Lemma rel_uuid4 : rel (G:=G) (fun _ _ => True) uuid4 uuid4.
Proof.
  intros w1 w2 Hw. unfold uuid4, lift_os.
  destruct (os_uuid4 (w_os w1)), (os_uuid4 (w_os w2)). done.
Qed.

Lemma rel_mapM {A B} (R : B -> B -> Prop) (f : A -> M G E B) (l : list A) :
  (forall x, rel R (f x) (f x)) -> rel (Forall2 R) (mapM f l) (mapM f l).
Proof.
  intros Hf. induction l as [|x l IH]; simpl.
  - apply rel_ret. constructor.
  - eapply rel_bind; [apply Hf|]. intros y1 y2 Hy.
    eapply rel_bind; [apply IH|]. intros ys1 ys2 Hys.
    apply rel_ret. by constructor.
Qed.

Lemma rel_mapM_eq {A B} (f : A -> M G E B) (l : list A) :
  (forall x, rel eq (f x) (f x)) -> rel eq (mapM f l) (mapM f l).
Proof.
  intros Hf. induction l as [|x l IH]; simpl.
  - by apply rel_ret.
  - apply rel_bind_eq; [apply Hf|]. intros y.
    apply rel_bind_eq; [apply IH|]. intros ys. by apply rel_ret.
Qed.

Lemma rel_index {A} (l : list A) i : rel (G:=G) (E:=E) eq (index l i) (index l i).
Proof. unfold index. destruct (l !! i); [by apply rel_ret|apply rel_raise]. Qed.

Lemma rel_fdiv x y : rel (G:=G) (E:=E) eq (fdiv x y) (fdiv x y).
Proof. unfold fdiv. destruct (Qeq_bool y 0); [apply rel_raise|by apply rel_ret]. Qed.

Lemma rel_assoc {A} (d : list (string * A)) k :
  rel (G:=G) (E:=E) eq (assoc d k) (assoc d k).
Proof.
  unfold assoc. destruct (list_find _ d) as [[? ?]|]; [by apply rel_ret|apply rel_raise].
Qed.

Lemma rel_from_option {A} (o : option A) :
  rel (G:=G) (E:=E) eq (from_option mret raise o) (from_option mret raise o).
Proof. destruct o; [by apply rel_ret|apply rel_raise]. Qed.

Lemma rel_random_random : rel (E:=E) eq random_random random_random.
Proof. apply rel_lift_rng. Qed.

Lemma rel_randbelow n : rel (E:=E) eq (randbelow n) (randbelow n).
Proof. apply rel_lift_rng. Qed.

Lemma rel_random_uniform a b : rel (E:=E) eq (random_uniform a b) (random_uniform a b).
Proof.
  unfold random_uniform. apply rel_bind_eq; [apply rel_random_random|].
  intros r. by apply rel_ret.
Qed.

Lemma rel_random_randint a b : rel (E:=E) eq (random_randint a b) (random_randint a b).
Proof.
  unfold random_randint. destruct (b <? a); [apply rel_raise|].
  apply rel_bind_eq; [apply rel_randbelow|]. intros i. by apply rel_ret.
Qed.

Lemma rel_random_choice {A} (seq : list A) :
  rel (E:=E) eq (random_choice seq) (random_choice seq).
Proof.
  unfold random_choice. destruct seq; [apply rel_raise|].
  apply rel_bind_eq; [apply rel_randbelow|]. intros i. apply rel_index.
Qed.

Lemma rel_sample_pool {A} k (pool : list A) n :
  rel (E:=E) eq (sample_pool k pool n) (sample_pool k pool n).
Proof.
  revert pool n. induction k as [|k IH]; intros pool n; simpl.
  - by apply rel_ret.
  - apply rel_bind_eq; [apply rel_randbelow|]. intros j.
    apply rel_bind_eq; [apply rel_index|]. intros x.
    apply rel_bind_eq; [apply rel_index|]. intros y.
    apply rel_bind_eq; [apply IH|]. intros rest. by apply rel_ret.
Qed.

Lemma rel_random_sample {A} (population : list A) k :
  rel (E:=E) eq (random_sample population k) (random_sample population k).
Proof.
  unfold random_sample. destruct (_ || _); [apply rel_raise|apply rel_sample_pool].
Qed.

Lemma rel_draw_hours : rel (E:=E) eq draw_hours draw_hours.
Proof.
  unfold draw_hours. apply rel_bind_eq; [apply rel_random_random|]. intros r.
  destruct (Qltb r 0.15).
  - apply rel_bind_eq; [apply rel_random_choice|]. intros ot. by apply rel_ret.
  - apply rel_bind_eq; [apply rel_random_random|]. intros r'.
    apply rel_bind_eq.
    + destruct (Qltb 0.1 r'); [by apply rel_ret|apply rel_random_choice].
    + intros st. by apply rel_ret.
Qed.

Lemma rel_labor_entry project active current_date worker :
  rel same_but_log_id (labor_entry project active current_date worker)
                      (labor_entry project active current_date worker).
Proof.
  unfold labor_entry.
  apply rel_bind_eq; [apply rel_random_choice|]. intros assigned.
  apply rel_bind_eq; [apply rel_draw_hours|]. intros [st ot].
  eapply rel_bind; [apply rel_uuid4|]. intros u1 u2 _.
  apply rel_bind_eq; [apply rel_random_randint|]. intros emp.
  apply rel_bind_eq; [apply rel_random_randint|]. intros floor.
  apply rel_ret. unfold same_but_log_id. simpl. repeat split.
Qed.

Lemma rel_labor_day project lines days current_date day_count :
  rel (Forall2 same_but_log_id)
      (labor_day project lines days current_date day_count)
      (labor_day project lines days current_date day_count).
Proof.
  unfold labor_day.
  apply rel_bind_eq; [apply rel_fdiv|]. intros phase_pct.
  apply rel_bind_eq.
  { repeat case_match; apply rel_random_randint. }
  intros base_crew.
  apply rel_bind_eq.
  { case_match; [|by apply rel_ret].
    apply rel_bind_eq; [apply rel_index|]. intros l. by apply rel_ret. }
  intros active.
  apply rel_bind_eq; [apply rel_random_sample|]. intros workers.
  apply rel_bind_eq.
  { case_match; [|by apply rel_ret].
    apply rel_mapM_eq. intros _. apply rel_random_choice. }
  intros extra. apply rel_mapM. intros worker. apply rel_labor_entry.
Qed.

Lemma rel_labor_days n project lines days current_date day_count logs1 logs2 :
  Forall2 same_but_log_id logs1 logs2 ->
  rel (Forall2 same_but_log_id)
      (labor_days n project lines days current_date day_count logs1)
      (labor_days n project lines days current_date day_count logs2).
Proof.
  revert current_date day_count logs1 logs2.
  induction n as [|n IH]; intros current_date day_count logs1 logs2 Hlogs; simpl.
  - by apply rel_ret.
  - eapply rel_bind; [apply rel_labor_day|]. intros entries1 entries2 Hentries.
    apply IH. by apply Forall2_app.
Qed.

Lemma rel_generate_labor_logs project lines start :
  rel (Forall2 same_but_log_id)
      (generate_labor_logs project lines start)
      (generate_labor_logs project lines start).
Proof. unfold generate_labor_logs. apply rel_labor_days. constructor. Qed.

Lemma rel_generate_contract_value project :
  rel (E:=E) eq (generate_contract_value project) (generate_contract_value project).
Proof.
  unfold generate_contract_value.
  repeat (apply rel_bind_eq;
          [first [apply rel_random_uniform | apply rel_assoc
                 | apply rel_random_randint | apply rel_random_choice]|intros ?]).
  by apply rel_ret.
Qed.

Lemma rel_generate_sov project contract_value :
  rel (E:=E) eq (generate_sov project contract_value)
                (generate_sov project contract_value).
Proof.
  unfold generate_sov.
  apply rel_bind_eq. { apply rel_mapM_eq. intros item. apply rel_random_uniform. }
  intros raw_pcts.
  apply rel_bind_eq. { apply rel_mapM_eq. intros p. apply rel_fdiv. }
  intros pcts.
  apply rel_bind_eq.
  { apply rel_mapM_eq. intros [i item]. unfold sov_line.
    apply rel_bind_eq; [apply rel_index|]. intros p.
    apply rel_bind_eq; [apply rel_from_option|]. intros n.
    apply rel_bind_eq; [case_match; apply rel_random_uniform|]. intros lp.
    apply rel_bind_eq; [case_match; apply rel_random_uniform|]. intros mp.
    by apply rel_ret. }
  intros sov_lines. unfold adjust_last.
  destruct sov_lines; [apply rel_raise|by apply rel_ret].
Qed.

(** Whatever the operating system's entropy, two runs from one state of
    [random] log the same entries, [log_id] apart. *)
Lemma main_labor_logs_same_but_log_id project :
  rel (Forall2 same_but_log_id) (main_labor_logs project) (main_labor_logs project).
Proof.
  unfold main_labor_logs.
  apply rel_bind_eq; [apply rel_generate_contract_value|]. intros contract.
  apply rel_bind_eq; [apply rel_generate_sov|]. intros sov_lines.
  apply rel_generate_labor_logs.
Qed.
End Reproducibility.

(** *** Where the identifiers come from *)

Section OsEntropyFacts.
Context {G E : Type} `{PRNG G} `{OsEntropy E}.

Lemma keeps_os_ret {A} (a : A) : keeps_os (G:=G) (E:=E) (mret a).
Proof. by intros w a' w' [_ ->]%ret_Some. Qed.

Lemma keeps_os_raise {A} : keeps_os (G:=G) (E:=E) (A:=A) raise.
Proof. by intros w a w'. Qed.

Lemma keeps_os_bind {A B} (c : M G E A) (f : A -> M G E B) :
  keeps_os c -> (forall a, keeps_os (f a)) -> keeps_os (c ≫= f).
Proof.
  intros Hc Hf w b w' (a & w1 & Ha & Hb)%bind_Some.
  rewrite (Hf _ _ _ _ Hb). by eapply Hc.
Qed.

Lemma keeps_os_lift_rng {A} (f : G -> A * G) : keeps_os (E:=E) (lift_rng f).
Proof.
  intros w a w'. unfold lift_rng. destruct (f (w_rng w)) as [a' g].
  by intros [= _ <-].
Qed.

Lemma keeps_os_mapM {A B} (f : A -> M G E B) (l : list A) :
  (forall x, keeps_os (f x)) -> keeps_os (mapM f l).
Proof.
  intros Hf. induction l as [|x l IH]; simpl; [apply keeps_os_ret|].
  apply keeps_os_bind; [apply Hf|]. intros y.
  apply keeps_os_bind; [apply IH|]. intros ys. apply keeps_os_ret.
Qed.

Lemma keeps_os_index {A} (l : list A) i : keeps_os (G:=G) (E:=E) (index l i).
Proof. unfold index. destruct (l !! i); [apply keeps_os_ret|apply keeps_os_raise]. Qed.

Lemma keeps_os_fdiv x y : keeps_os (G:=G) (E:=E) (fdiv x y).
Proof.
  unfold fdiv. destruct (Qeq_bool y 0); [apply keeps_os_raise|apply keeps_os_ret].
Qed.

Lemma keeps_os_assoc {A} (d : list (string * A)) k : keeps_os (G:=G) (E:=E) (assoc d k).
Proof.
  unfold assoc.
  destruct (list_find _ d) as [[? ?]|]; [apply keeps_os_ret|apply keeps_os_raise].
Qed.

Lemma keeps_os_from_option {A} (o : option A) :
  keeps_os (G:=G) (E:=E) (from_option mret raise o).
Proof. destruct o; [apply keeps_os_ret|apply keeps_os_raise]. Qed.

Lemma keeps_os_random_uniform a b : keeps_os (E:=E) (random_uniform a b).
Proof.
  unfold random_uniform. apply keeps_os_bind; [apply keeps_os_lift_rng|].
  intros r. apply keeps_os_ret.
Qed.

Lemma keeps_os_random_randint a b : keeps_os (E:=E) (random_randint a b).
Proof.
  unfold random_randint. destruct (b <? a); [apply keeps_os_raise|].
  apply keeps_os_bind; [apply keeps_os_lift_rng|]. intros i. apply keeps_os_ret.
Qed.

Lemma keeps_os_random_choice {A} (seq : list A) : keeps_os (E:=E) (random_choice seq).
Proof.
  unfold random_choice. destruct seq; [apply keeps_os_raise|].
  apply keeps_os_bind; [apply keeps_os_lift_rng|]. intros i. apply keeps_os_index.
Qed.

Lemma keeps_os_random_sample {A} (population : list A) k :
  keeps_os (E:=E) (random_sample population k).
Proof.
  unfold random_sample. destruct (_ || _); [apply keeps_os_raise|].
  generalize (length population) as n. revert population.
  induction (Z.to_nat k) as [|k' IH]; intros pool n; simpl; [apply keeps_os_ret|].
  apply keeps_os_bind; [apply keeps_os_lift_rng|]. intros j.
  apply keeps_os_bind; [apply keeps_os_index|]. intros x.
  apply keeps_os_bind; [apply keeps_os_index|]. intros y.
  apply keeps_os_bind; [apply IH|]. intros rest. apply keeps_os_ret.
Qed.

Lemma keeps_os_draw_hours : keeps_os (E:=E) draw_hours.
Proof.
  unfold draw_hours. apply keeps_os_bind; [apply keeps_os_lift_rng|]. intros r.
  destruct (Qltb r 0.15).
  - apply keeps_os_bind; [apply keeps_os_random_choice|]. intros ot.
    apply keeps_os_ret.
  - apply keeps_os_bind; [apply keeps_os_lift_rng|]. intros r'.
    apply keeps_os_bind; [|intros st; apply keeps_os_ret].
    destruct (Qltb 0.1 r'); [apply keeps_os_ret|apply keeps_os_random_choice].
Qed.

Lemma keeps_os_generate_contract_value project :
  keeps_os (E:=E) (generate_contract_value project).
Proof.
  unfold generate_contract_value.
  repeat (apply keeps_os_bind;
          [first [apply keeps_os_random_uniform | apply keeps_os_assoc
                 | apply keeps_os_random_randint | apply keeps_os_random_choice]
          |intros ?]).
  apply keeps_os_ret.
Qed.

Lemma keeps_os_generate_sov project contract_value :
  keeps_os (E:=E) (generate_sov project contract_value).
Proof.
  unfold generate_sov.
  apply keeps_os_bind.
  { apply keeps_os_mapM. intros item. apply keeps_os_random_uniform. }
  intros raw_pcts.
  apply keeps_os_bind. { apply keeps_os_mapM. intros p. apply keeps_os_fdiv. }
  intros pcts.
  apply keeps_os_bind.
  { apply keeps_os_mapM. intros [i item]. unfold sov_line.
    apply keeps_os_bind; [apply keeps_os_index|]. intros p.
    apply keeps_os_bind; [apply keeps_os_from_option|]. intros n.
    apply keeps_os_bind; [case_match; apply keeps_os_random_uniform|]. intros lp.
    apply keeps_os_bind; [case_match; apply keeps_os_random_uniform|]. intros mp.
    apply keeps_os_ret. }
  intros sov_lines. unfold adjust_last.
  destruct sov_lines; [apply keeps_os_raise|apply keeps_os_ret].
Qed.

Lemma uuids_app (n m : nat) (e : E) :
  (uuids (n + m) e).1 = (uuids n e).1 ++ (uuids m (uuids n e).2).1 /\
  (uuids (n + m) e).2 = (uuids m (uuids n e).2).2.
Proof.
  revert e. induction n as [|n IH]; intros e; simpl; [done|].
  destruct (IH (os_uuid4 e).2) as [-> ->]. done.
Qed.

(** An entry takes one [uuid.uuid4()], and its [log_id] from it. *)
Lemma labor_entry_uuid project active current_date worker (w w' : World G E) e :
  labor_entry project active current_date worker w = Some (e, w') ->
  log_id e = str_take 8 (os_uuid4 (w_os w)).1 /\ w_os w' = (os_uuid4 (w_os w)).2.
Proof.
  unfold labor_entry. intros Hm.
  apply bind_Some in Hm as (assigned & w1 & H1%keeps_os_random_choice & Hm).
  apply bind_Some in Hm as ([st ot] & w2 & H2%keeps_os_draw_hours & Hm).
  apply bind_Some in Hm as (u & w3 & Hu & Hm).
  apply bind_Some in Hm as (emp & w4 & H4%keeps_os_random_randint & Hm).
  apply bind_Some in Hm as (floor & w5 & H5%keeps_os_random_randint & Hm).
  apply ret_Some in Hm as [<- <-]. simpl.
  unfold uuid4, lift_os in Hu. rewrite H2, H1 in Hu.
  destruct (os_uuid4 (w_os w)) as [u' e']. injection Hu as <- <-. simpl in *.
  split; [done|]. by rewrite H5, H4.
Qed.

Lemma labor_entries_uuids project active current_date workers :
  log_ids_from_os (G:=G) (mapM (labor_entry project active current_date) workers).
Proof.
  induction workers as [|worker workers IH]; intros w logs w' Hm; simpl in Hm.
  - by apply ret_Some in Hm as [<- <-].
  - apply bind_Some in Hm as (e & w1 & [Hid Hos]%labor_entry_uuid & Hm).
    apply bind_Some in Hm as (es & w2 & [Hids Hos']%IH & Hm).
    apply ret_Some in Hm as [<- <-]. cbn [length uuids fst snd].
    rewrite !fmap_cons, Hid, Hids, Hos', Hos. done.
Qed.

Lemma labor_day_uuids project lines days current_date day_count :
  log_ids_from_os (G:=G) (labor_day project lines days current_date day_count).
Proof.
  intros w logs w' Hm. unfold labor_day in Hm.
  apply bind_Some in Hm as (phase_pct & w1 & H1%keeps_os_fdiv & Hm).
  apply bind_Some in Hm as (base_crew & w2 & H2 & Hm).
  assert (w_os w2 = w_os w1) as H2'.
  { destruct (Qltb phase_pct 0.15);
      [|destruct (Qltb phase_pct 0.75); [destruct (String.eqb _ _)|]];
      by eapply keeps_os_random_randint. }
  apply bind_Some in Hm as (active & w3 & H3 & Hm).
  assert (w_os w3 = w_os w2) as H3'.
  { match type of H3 with
    | (match ?x with _ => _ end) _ = _ => destruct x
    end; [|by eapply keeps_os_ret].
    revert H3. apply keeps_os_bind; [apply keeps_os_index|].
    intros l. apply keeps_os_ret. }
  apply bind_Some in Hm as (workers & w4 & H4%keeps_os_random_sample & Hm).
  apply bind_Some in Hm as (extra & w5 & H5 & Hm).
  assert (w_os w5 = w_os w4) as H5'.
  { destruct (base_crew >? _); [|by eapply keeps_os_ret].
    revert H5. apply keeps_os_mapM. intros _. apply keeps_os_random_choice. }
  apply labor_entries_uuids in Hm.
  by rewrite H5', H4, H3', H2', H1 in Hm.
Qed.

Lemma labor_days_uuids n project lines days current_date day_count logs
    (w w' : World G E) logs' :
  labor_days n project lines days current_date day_count logs w = Some (logs', w') ->
  exists entries,
    logs' = logs ++ entries /\
    log_id <$> entries = str_take 8 <$> (uuids (length entries) (w_os w)).1 /\
    w_os w' = (uuids (length entries) (w_os w)).2.
Proof.
  revert current_date day_count logs w.
  induction n as [|n IH]; intros current_date day_count logs w Hm; simpl in Hm.
  - apply ret_Some in Hm as [<- <-]. exists []. by rewrite app_nil_r.
  - apply bind_Some in Hm as (entries1 & w1 & [Hids1 Hos1]%labor_day_uuids & Hm).
    apply IH in Hm as (entries2 & -> & Hids2 & Hos2).
    exists (entries1 ++ entries2). rewrite app_assoc. split; [done|].
    rewrite length_app.
    destruct (uuids_app (length entries1) (length entries2) (w_os w)) as [-> ->].
    rewrite !fmap_app, Hids1, Hids2, Hos2, Hos1. done.
Qed.

(** The [log_id] of the labor logs are the results of [uuid.uuid4()] since the
    start of the run: nothing of them comes from [random]. *)
Lemma main_labor_logs_ids_from_os project :
  log_ids_from_os (G:=G) (E:=E) (main_labor_logs project).
Proof.
  intros w logs w' Hm. unfold main_labor_logs in Hm.
  apply bind_Some in Hm as (contract & w1 & H1%keeps_os_generate_contract_value & Hm).
  apply bind_Some in Hm as (sov_lines & w2 & H2%keeps_os_generate_sov & Hm).
  apply labor_days_uuids in Hm as (entries & -> & Hids & Hos).
  by rewrite H2, H1 in Hids, Hos.
Qed.
End OsEntropyFacts.

(** C5.  Two runs of the head of [main] (contract, schedule of values, labor
    logs) from one state of [random] agree on every field of every labor log
    but [log_id], whatever the project and the host; the [log_id] are the
    first eight characters of the successive results of [uuid.uuid4()], which
    [random.seed] does not reach.  On the seed 42 with the entropy pool of the
    operating system in two states, both runs return and their lists of
    [log_id] differ. *)
Theorem log_ids_differ_between_runs :
  (forall (G E : Type) `{PRNG G} `{OsEntropy E} (project : Project),
     rel (G:=G) (E:=E) (Forall2 same_but_log_id)
         (main_labor_logs project) (main_labor_logs project) /\
     log_ids_from_os (G:=G) (E:=E) (main_labor_logs project)) /\
  (exists logs1 w1 logs2 w2,
     main_labor_logs short_project (boot 42 0) = Some (logs1, w1) /\
     main_labor_logs short_project (boot 42 1000) = Some (logs2, w2) /\
     Forall2 same_but_log_id logs1 logs2 /\
     w_rng w1 = w_rng w2 /\
     log_id <$> logs1 <> log_id <$> logs2).
Proof.
  split.
  { intros G E ? ? project.
    split; [apply main_labor_logs_same_but_log_id|apply main_labor_logs_ids_from_os]. }
  assert (Ha : main_labor_logs short_project (boot 42 0) = first_run)
    by (vm_compute; reflexivity).
  assert (Hb : main_labor_logs short_project (boot 42 1000) = second_run)
    by (vm_compute; reflexivity).
  pose proof (main_labor_logs_same_but_log_id (G:=Z) (E:=Z) short_project
                (boot 42 0) (boot 42 1000) eq_refl) as Hrel.
  rewrite Ha, Hb in Hrel |- *. unfold first_run, second_run in *.
  destruct Hrel as [Hlogs Hrng].
  eexists _, _, _, _. split; [reflexivity|]. split; [reflexivity|].
  split; [exact Hlogs|]. split; [exact Hrng|].
  intros Heq. apply (f_equal head) in Heq. discriminate Heq.
Qed.

(** * Further properties of the generators *)

(** ** Contracts *)

Section ContractFacts.
Context {G E : Type} `{PRNG G} `{OsEntropy E}.





End ContractFacts.

(** ** The schedule of values, again *)


Section SovShape.
Context {G E : Type} `{PRNG G} `{OsEntropy E}.




End SovShape.


Section DeclaredProjects.
Context {G E : Type} `{PRNG G} `{OsEntropy E}.

End DeclaredProjects.







(** ** Billing, again *)


Section BillingShape.
Context {G E : Type} `{PRNG G} `{OsEntropy E}.

End BillingShape.



Section BillingItems.
Context {G E : Type} `{PRNG G} `{OsEntropy E}.







End BillingItems.




(** ** Labor logs, again *)



Section LaborShape.
Context {G E : Type} `{PRNG G} `{OsEntropy E}.









End LaborShape.




(** ** Material deliveries, again *)




Section DeliveryShape.
Context {G E : Type} `{PRNG G} `{OsEntropy E}.






End DeliveryShape.



(** ** RFIs, again *)



Section RfiShape.
Context {G E : Type} `{PRNG G} `{OsEntropy E}.






End RfiShape.



(** ** Change orders *)






Section ChangeOrderFacts.
Context {G E : Type} `{PRNG G} `{OsEntropy E} `{PRNGSelect G}.









End ChangeOrderFacts.






(** ** What the seed does fix *)




Section SeededTables.
Context {G E : Type} `{PRNG G} `{OsEntropy E} `{PRNGSelect G}.













End SeededTables.

